(** * indonewscop: the extraction coalescing pipeline

    A shallow embedding of [indonewscop.py]: the two extractor adapters
    ([fetch_with_trafilatura], [fetch_with_newspaper]), the coalescer
    ([coalesce_article]), the robots.txt gate ([robots_allowed]), the
    finalisation done by [main], and [slugify].

    Python dictionaries with string keys are finite maps ([gmap string value]);
    Python exceptions are an explicit [outcome]; the third-party libraries
    (trafilatura, newspaper, json, urllib) are an environment of functions
    whose results may be a value or a raised exception. *)

From Stdlib Require Import ZArith NArith List String Ascii Bool Lia.
From stdpp Require Import base option list strings gmap fin_maps.

Set Warnings "-register-all".
Local Open Scope string_scope.
Local Open Scope list_scope.

(** ** Python values *)

(** What a JSON document decoded by [json.loads] can hold, which is also all
    the adapters ever put in a record. A JSON object is the list of its
    members, one per key. Numbers are integers: the script only ever tests a
    value for truth, and a float is false exactly when it is zero too. *)
Inductive value : Type :=
  | VNone
  | VBool (b : bool)
  | VInt (n : Z)
  | VStr (s : string)
  | VList (l : list value)
  | VDict (d : list (string * value)).

(** Python truth value testing: [None], [False], [0], [""], [[]], [{}] are
    false, everything else is true. *)
Definition truthy (v : value) : bool :=
  match v with
  | VNone => false
  | VBool b => b
  | VInt n => negb (n =? 0)%Z
  | VStr s => negb (String.eqb s "")
  | VList l => match l with [] => false | _ => true end
  | VDict d => match d with [] => false | _ => true end
  end.

(** [a or b] *)
Definition py_or (a b : value) : value := if truthy a then a else b.

(** [isinstance(v, str)] and "is a sequence" ([list]). *)
Definition is_str (v : value) : bool :=
  match v with VStr _ => true | _ => false end.

Definition is_list (v : value) : bool :=
  match v with VList _ => true | _ => false end.

Definition is_list_of_str (v : value) : bool :=
  match v with VList l => forallb is_str l | _ => false end.

(** ** Exceptions *)

(** The subclasses of [Exception] that the modelled calls raise; this is the
    range of [except Exception]. *)
Inductive exn : Type :=
  | AttributeError
  | TypeError
  | ValueError
  | OverflowError
  | JSONDecodeError
  | URLError
  | ArticleException
  | OSError.

Inductive outcome (A : Type) : Type :=
  | Returned (a : A)
  | Raised (e : exn).
Arguments Returned {A} a.
Arguments Raised {A} e.

Definition obind {A B} (f : A -> outcome B) (m : outcome A) : outcome B :=
  match m with
  | Returned a => f a
  | Raised e => Raised e
  end.

#[global] Instance outcome_ret : MRet outcome := @Returned.
#[global] Instance outcome_bind : MBind outcome := @obind.

(** [try: body  except Exception: return handler] *)
Definition try_except {A} (body : outcome A) (handler : A) : A :=
  match body with
  | Returned a => a
  | Raised _ => handler
  end.

Definition raises {A} (m : outcome A) : bool :=
  match m with Raised _ => true | Returned _ => false end.

(** ** Dictionaries *)

(** [d.get(k)] on one of our own records: the value, or [None]. *)
Definition dict_get (d : gmap string value) (k : string) : value :=
  default VNone (d !! k).

(** A dictionary is true when it is not empty. *)
Definition dict_truthy (d : gmap string value) : bool :=
  negb (bool_decide (d = ∅)).

Fixpoint assoc_get (d : list (string * value)) (k : string) : value :=
  match d with
  | [] => VNone
  | (k', v) :: d' => if String.eqb k' k then v else assoc_get d' k
  end.

(** [data.get(k)] on a decoded JSON document: only an object has [get];
    on a list, a string, a number or [None] the attribute lookup raises. *)
Definition value_get (data : value) (k : string) : outcome value :=
  match data with
  | VDict d => Returned (assoc_get d k)
  | _ => Raised AttributeError
  end.

(** [get] on a result that may be absent: [None] has no fields. *)
Definition opt_get (r : option (gmap string value)) (k : string) : value :=
  match r with
  | Some d => dict_get d k
  | None => VNone
  end.

Definition opt_lookup (r : option (gmap string value)) (k : string)
  : option value :=
  match r with
  | Some d => d !! k
  | None => None
  end.

(** ** slugify *)

Module Slug.

(** A Python [str] is a sequence of Unicode code points, here [list N].
    [of_string] reads an ASCII literal as such a sequence. *)
Definition of_string (s : string) : list N :=
  map N_of_ascii (list_ascii_of_string s).

Definition to_string (s : list N) : string :=
  string_of_list_ascii (map ascii_of_N s).

Definition in_range (lo hi c : N) : bool := ((lo <=? c) && (c <=? hi))%N.

(** [str.isspace] per character, which is also what [\s] matches in a [str]
    pattern: U+0009..000D, U+001C..0020, U+0085, U+00A0, U+1680,
    U+2000..200A, U+2028, U+2029, U+202F, U+205F, U+3000. *)
Definition is_space (c : N) : bool :=
  (in_range 9 13 c || in_range 28 32 c || (c =? 133) || (c =? 160)
   || (c =? 5760) || in_range 8192 8202 c || (c =? 8232) || (c =? 8233)
   || (c =? 8239) || (c =? 8287) || (c =? 12288))%N.

Definition hyphen : N := 45.
Definition underscore : N := 95.
Definition dot : N := 46.

Definition is_lower_az (c : N) : bool := in_range 97 122 c.
Definition is_digit (c : N) : bool := in_range 48 57 c.

(** The characters of the result: [a-z], [0-9], [-], [_], [.]. *)
Definition slug_char (c : N) : bool :=
  (is_lower_az c || is_digit c || (c =? hyphen) || (c =? underscore)
   || (c =? dot))%N.

(** The class [[a-z0-9\s\-_.]]: what the first substitution keeps. *)
Definition kept (c : N) : bool := slug_char c || is_space c.

(** [str.lower] restricted to ASCII text. *)
Definition ascii_lower (s : list N) : list N :=
  map (fun c => if in_range 65 90 c then (c + 32)%N else c) s.

Fixpoint lstrip (s : list N) : list N :=
  match s with
  | c :: s' => if is_space c then lstrip s' else s
  | [] => []
  end.

(** [s.rstrip(chars)] for a predicate on characters. *)
Fixpoint rstrip_by (p : N -> bool) (s : list N) : list N :=
  match s with
  | [] => []
  | c :: s' =>
      match rstrip_by p s' with
      | [] => if p c then [] else [c]
      | r => c :: r
      end
  end.

(** [s.strip()] *)
Definition strip (s : list N) : list N := rstrip_by is_space (lstrip s).

(** [re.sub(r"[^a-z0-9\s\-_.]", "", s)] *)
Definition sub_unwanted (s : list N) : list N := List.filter kept s.

(** [re.sub(r"\s+", "-", s)]: each maximal run of spaces becomes one hyphen.
    [in_run] tells that the previous character was a space. *)
Fixpoint sub_spaces_from (in_run : bool) (s : list N) : list N :=
  match s with
  | [] => []
  | c :: s' =>
      if is_space c
      then (if in_run then sub_spaces_from true s'
            else hyphen :: sub_spaces_from true s')
      else c :: sub_spaces_from false s'
  end.

Definition sub_spaces (s : list N) : list N := sub_spaces_from false s.

(** [s[:n]] with Python's meaning of a negative bound. *)
Definition slice_to (s : list N) (n : Z) : list N :=
  if (0 <=? n)%Z then firstn (Z.to_nat n) s
  else firstn (Z.to_nat (Z.of_nat (length s) + n)) s.

Definition is_hyphen_or_underscore (c : N) : bool :=
  ((c =? hyphen) || (c =? underscore))%N.

Definition untitled : list N := of_string "untitled".

Section Slugify.
(** [str.lower]: Unicode lowering is driven by tables and by context (the
    final sigma), so it is left as any function on strings. *)
Variable str_lower : list N -> list N.

(** The text just before [return text or "untitled"]. *)
Definition slug_text (text : list N) (max_len : Z) : list N :=
  let text := str_lower (strip text) in
  let text := sub_unwanted text in
  let text := sub_spaces text in
  if (Z.of_nat (length text) >? max_len)%Z
  then rstrip_by is_hyphen_or_underscore (slice_to text max_len)
  else text.

Definition slugify (text : list N) (max_len : Z) : list N :=
  match slug_text text max_len with
  | [] => untitled
  | t => t
  end.
End Slugify.

Definition default_max_len : Z := 80.

End Slug.

(** ** Dates: Python's [datetime] as far as the fallback adapter uses it *)

Module Datetime.
Local Open Scope Z_scope.

(** A [datetime] object: the reading of the wall clock, in microseconds since
    0001-01-01T00:00:00 of the proleptic Gregorian calendar, and the
    [utcoffset()] of its [tzinfo] in seconds. [tzinfo = None] is a naive
    date, one without timezone information. *)
Record datetime : Type := mk_datetime {
  wall : Z;
  tzinfo : option Z
}.

Definition us_per_second : Z := 1000000.
Definition us_per_day : Z := 86400 * us_per_second.

(** [datetime.max] is 9999-12-31T23:59:59.999999: ordinal day 3652059. *)
Definition wall_limit : Z := 3652059 * us_per_day.

Definition representable (w : Z) : bool := (0 <=? w) && (w <? wall_limit).

(** Year, month and day of the day number [n] (0 is 0001-01-01), by the
    usual computation on 400-year eras with years starting in March. *)
Definition civil_of_days (n : Z) : Z * Z * Z :=
  let z := n + 306 in
  let era := z / 146097 in
  let doe := z mod 146097 in
  let yoe := (doe - doe / 1460 + doe / 36524 - doe / 146096) / 365 in
  let doy := doe - (365 * yoe + yoe / 4 - yoe / 100) in
  let mp := (5 * doy + 2) / 153 in
  let d := doy - (153 * mp + 2) / 5 + 1 in
  let m := if mp <? 10 then mp + 3 else mp - 9 in
  let y := yoe + era * 400 + (if m <=? 2 then 1 else 0) in
  (y, m, d).

Definition digit (n : Z) : string :=
  String (ascii_of_N (Z.to_N (48 + n mod 10))) EmptyString.

(** [n] in decimal on exactly [width] digits (the [%0width d] of a number
    that fits). *)
Fixpoint zero_padded (width : nat) (n : Z) : string :=
  match width with
  | O => EmptyString
  | S w => String.append (zero_padded w (n / 10)) (digit n)
  end.

(** [timedelta] offset as [+HH:MM], with [:SS] when it has seconds. *)
Definition format_offset (off : Z) : string :=
  let sign := if off <? 0 then "-"%string else "+"%string in
  let a := Z.abs off in
  let hh := a / 3600 in
  let mm := (a mod 3600) / 60 in
  let ss := a mod 60 in
  (sign +:+ zero_padded 2 hh +:+ ":" +:+ zero_padded 2 mm +:+
   (if (ss =? 0)%Z then "" else ":" +:+ zero_padded 2 ss))%string.

(** [datetime.isoformat()] *)
Definition isoformat (d : datetime) : string :=
  let days := wall d / us_per_day in
  let rest := wall d mod us_per_day in
  let '(y, m, dd) := civil_of_days days in
  let secs := rest / us_per_second in
  let us := rest mod us_per_second in
  (zero_padded 4 y +:+ "-" +:+ zero_padded 2 m +:+ "-" +:+ zero_padded 2 dd
   +:+ "T" +:+ zero_padded 2 (secs / 3600)%Z +:+ ":" +:+
   zero_padded 2 ((secs mod 3600) / 60)%Z +:+ ":" +:+
   zero_padded 2 (secs mod 60)%Z
   +:+ (if (us =? 0)%Z then "" else "." +:+ zero_padded 6 us)
   +:+ match tzinfo d with
       | None => ""
       | Some off => format_offset off
       end)%string.

(** [d - timedelta(seconds=off)], which raises [OverflowError] when the
    result leaves [datetime.min .. datetime.max]. *)
Definition minus_offset (d : datetime) (off : Z) : outcome Z :=
  let w := wall d - off * us_per_second in
  if representable w then Returned w else Raised OverflowError.

Section Astimezone.
(** The UTC offset, in seconds, that the local zone of the host gives to a
    wall-clock reading ([datetime._local_timezone], which asks the
    platform and may fail). *)
Variable local_utcoffset : Z -> outcome Z.

(** [d.astimezone(timezone.utc)]: the offset of an aware date is its own;
    a naive date is taken to be local time of the host. *)
Definition astimezone_utc (d : datetime) : outcome datetime :=
  myoffset ← match tzinfo d with
             | Some off => Returned off
             | None => local_utcoffset (wall d)
             end;
  w ← minus_offset d myoffset;
  mret (mk_datetime w (Some 0)).
End Astimezone.

(** Day number of a calendar date, for writing dates down. *)
Definition days_of_civil (y m d : Z) : Z :=
  let y' := if m <=? 2 then y - 1 else y in
  let era := y' / 400 in
  let yoe := y' mod 400 in
  let mp := if m <=? 2 then m + 9 else m - 3 in
  let doy := (153 * mp + 2) / 5 + d - 1 in
  let doe := yoe * 365 + yoe / 4 - yoe / 100 + doy in
  era * 146097 + doe - 306.

Definition at_time (y m d hh mm ss : Z) (tz : option Z) : datetime :=
  mk_datetime ((days_of_civil y m d * 86400 + hh * 3600 + mm * 60 + ss)
               * us_per_second) tz.

End Datetime.

(** ** The libraries the script calls *)

(** The two components of [urlparse(url)] that are used. *)
Record urlparts : Type := mk_urlparts {
  scheme : string;
  netloc : string
}.

(** A newspaper [Article] after [download()] and [parse()]: the attributes
    the adapter reads. [publish_date] is a [datetime], or nothing ([None] or
    the initial [""], both false). *)
Record article : Type := mk_article {
  art_title : string;
  art_authors : list string;
  art_publish_date : option Datetime.datetime;
  art_text : string
}.

(** The behaviour of everything outside the script. Any call may raise. *)
Record env : Type := mk_env {
  (** the module-level flag set when [newspaper] could be imported *)
  NEWSPAPER_OK : bool;
  (** [urllib.parse.urlparse] *)
  urlparse : string -> outcome urlparts;
  (** [trafilatura.fetch_url(url, no_ssl=True)]: the page, or [None] *)
  trafilatura_fetch_url : string -> outcome (option string);
  (** [trafilatura.extract(downloaded, output_format="json", ...)] *)
  trafilatura_extract : string -> outcome (option string);
  (** [json.loads] *)
  json_loads : string -> outcome value;
  (** [art = Article(url); art.download(); art.parse()] *)
  Article_parse : string -> outcome article;
  (** the article once [art.nlp()] has run, whether it raised or not: the
      exception is swallowed on the spot, only the object itself remains *)
  Article_nlp : article -> article;
  (** the host's local UTC offset for a wall-clock reading *)
  local_utcoffset : Z -> outcome Z;
  (** [rp.set_url(robots_url); rp.read()], giving the parser's
      [can_fetch(user_agent, url)] *)
  robots_read : string -> outcome (string -> string -> outcome bool);
  (** [save_markdown], [append_jsonl] and [append_csv] on a record *)
  persist : gmap string value -> outcome unit
}.

Definition DEFAULT_UA : string :=
  "Mozilla/5.0 (compatible; IndoNewsCop/1.0; +https://github.com/<your-username>/indonewscop)".

(** ** robots_allowed *)

(** [f"{parsed.scheme}://{parsed.netloc}/robots.txt"] *)
Definition robots_txt_url (parsed : urlparts) : string :=
  scheme parsed +:+ "://" +:+ netloc parsed +:+ "/robots.txt".

Definition robots_allowed (E : env) (url : string) : outcome bool :=
  parsed ← urlparse E url;
  let robots_url := robots_txt_url parsed in
  mret (try_except
          (can_fetch ← robots_read E robots_url;
           can_fetch DEFAULT_UA url)
          true).

(** ** The extractor adapters *)

(** The record both adapters build. *)
Definition mk_record (url : string) (title authors date text sitename : value)
  : gmap string value :=
  <["url" := VStr url]> (<["title" := title]> (<["authors" := authors]>
  (<["date" := date]> (<["text" := text]> (<["sitename" := sitename]> ∅))))).

(** [not downloaded] for a string or [None] *)
Definition nonempty (s : option string) : option string :=
  match s with
  | Some s => if String.eqb s "" then None else Some s
  | None => None
  end.

(** [s or None] *)
Definition str_or_none (s : string) : value :=
  if String.eqb s "" then VNone else VStr s.

Definition fetch_with_trafilatura (E : env) (url : string)
  : outcome (option (gmap string value)) :=
  downloaded ← trafilatura_fetch_url E url;
  match nonempty downloaded with
  | None => mret None
  | Some downloaded =>
      result_json ← trafilatura_extract E downloaded;
      match nonempty result_json with
      | None => mret None
      | Some result_json =>
          mret (try_except
            (data ← json_loads E result_json;
             title ← value_get data "title";
             author ← value_get data "author";
             authors ← (if truthy author then mret author
                        else a ← value_get data "authors";
                             mret (py_or a (VList [])));
             date ← value_get data "date";
             text ← value_get data "text";
             site ← value_get data "sitename";
             sitename ← (if truthy site then mret site
                         else p ← urlparse E url; mret (VStr (netloc p)));
             mret (Some (mk_record url title authors date text sitename)))
            None)
      end
  end.

Definition fetch_with_newspaper (E : env) (url : string)
  : outcome (option (gmap string value)) :=
  if negb (NEWSPAPER_OK E) then mret None
  else
    mret (try_except
      (art ← Article_parse E url;
       let art := Article_nlp E art in
       dt ← match art_publish_date art with
            | Some d =>
                u ← Datetime.astimezone_utc (local_utcoffset E) d;
                mret (VStr (Datetime.isoformat u))
            | None => mret VNone
            end;
       p ← urlparse E url;
       mret (Some (mk_record url
                     (str_or_none (art_title art))
                     (VList (VStr <$> art_authors art))
                     dt
                     (str_or_none (art_text art))
                     (VStr (netloc p)))))
      None).

(** ** The coalescer *)

(** Which adapter was invoked, in order. *)
Inductive adapter_call : Type :=
  | CallTrafilatura (url : string)
  | CallNewspaper (url : string).

(** A computation that invokes adapters: it extends the log of calls and
    returns or raises. *)
Definition traced (A : Type) : Type :=
  list adapter_call -> outcome A * list adapter_call.

#[global] Instance traced_ret : MRet traced := fun A a log => (Returned a, log).
#[global] Instance traced_bind : MBind traced := fun A B f m log =>
  match m log with
  | (Returned a, log') => f a log'
  | (Raised e, log') => (Raised e, log')
  end.

Definition invoke {A} (c : adapter_call) (r : outcome A) : traced A :=
  fun log => (r, log ++ [c]).

(** [r and r.get("title") and r.get("text")]: the record when the test
    passes. *)
Definition sufficient (r : option (gmap string value))
  : option (gmap string value) :=
  match r with
  | Some d =>
      if dict_truthy d && truthy (dict_get d "title")
         && truthy (dict_get d "text")
      then Some d else None
  | None => None
  end.

Definition backfill_keys : list string := ["date"; "authors"; "sitename"].

(** One round of the loop: [if not fallback.get(k) and data.get(k):
    fallback[k] = data[k]]. When [data.get(k)] is true the key is there and
    [data[k]] is [data.get(k)]. *)
Definition backfill_key (data fallback : gmap string value) (k : string)
  : gmap string value :=
  if negb (truthy (dict_get fallback k)) && truthy (dict_get data k)
  then <[k := dict_get data k]> fallback
  else fallback.

(** [if data: for k in (...): ...] *)
Definition backfill (data : option (gmap string value))
  (fallback : gmap string value) : gmap string value :=
  match data with
  | Some d =>
      if dict_truthy d then foldl (backfill_key d) fallback backfill_keys
      else fallback
  | None => fallback
  end.

Definition stub (url : string) : gmap string value := {[ "url" := VStr url ]}.

(** [data or {"url": url}] *)
Definition or_stub (data : option (gmap string value)) (url : string)
  : gmap string value :=
  match data with
  | Some d => if dict_truthy d then d else stub url
  | None => stub url
  end.

(** The record held by the fallback's dictionary once the coalescer has
    run: it is updated in place when it is the base of the merge, and left
    alone otherwise. *)
Definition fallback_after (data fallback : option (gmap string value))
  : option (gmap string value) :=
  match sufficient fallback with
  | Some fb => Some (backfill data fb)
  | None => fallback
  end.

Section Coalesce.
(** The two adapters, as [coalesce_article] sees them. *)
Variable primary : string -> outcome (option (gmap string value)).
Variable secondary : string -> outcome (option (gmap string value)).

Definition coalesce_with (url : string) : traced (gmap string value) :=
  data ← invoke (CallTrafilatura url) (primary url);
  match sufficient data with
  | Some d => mret d
  | None =>
      fallback ← invoke (CallNewspaper url) (secondary url);
      match sufficient fallback with
      | Some fb => mret (backfill data fb)
      | None => mret (or_stub data url)
      end
  end.
End Coalesce.

Definition coalesce_article (E : env) (url : string)
  : traced (gmap string value) :=
  coalesce_with (fetch_with_trafilatura E) (fetch_with_newspaper E) url.

(** The value returned, the log of calls dropped. *)
Definition result_of {A} (m : traced A) : outcome A := fst (m []).

(** ** main: finalisation and the loop over the URLs *)

(** [if not record.get("authors"): record["authors"] = []] *)
Definition finalize (record : gmap string value) : gmap string value :=
  if negb (truthy (dict_get record "authors"))
  then <["authors" := VList []]> record
  else record.

(** [record = coalesce_article(url) or {"url": url}] and the normalisation
    that follows. *)
Definition final_record (E : env) (url : string)
  : outcome (gmap string value) :=
  record ← result_of (coalesce_article E url);
  mret (finalize (or_stub (Some record) url)).

(** The list under [authors:] in the front matter written by
    [save_markdown]: [authors = record.get("authors") or []], then
    [if isinstance(authors, str): authors = [authors]]. *)
Definition front_matter_authors (record : gmap string value) : value :=
  let authors := py_or (dict_get record "authors") (VList []) in
  if is_str authors then VList [authors] else authors.

(** [if not args.skip_robots and not robots_allowed(url): continue] *)
Definition skipped (E : env) (skip_robots : bool) (url : string)
  : outcome bool :=
  if negb skip_robots
  then allowed ← robots_allowed E url; mret (negb allowed)
  else mret false.

(** The loop of [main]: the records handed to the sinks, in order, and how
    the loop ended. An exception ends it at once. *)
Fixpoint main_loop (E : env) (skip_robots : bool) (urls : list string)
  : list (gmap string value) * outcome unit :=
  match urls with
  | [] => ([], Returned tt)
  | url :: rest =>
      match skipped E skip_robots url with
      | Raised e => ([], Raised e)
      | Returned true => main_loop E skip_robots rest
      | Returned false =>
          match final_record E url with
          | Raised e => ([], Raised e)
          | Returned record =>
              match persist E record with
              | Raised e => ([], Raised e)
              | Returned _ =>
                  let '(saved, ending) := main_loop E skip_robots rest in
                  (record :: saved, ending)
              end
          end
      end
  end.

(** ** Scenarios *)

Module Scenario.

Definition page : string := "https://news.example/a".
Definition other_page : string := "https://news.example/b".

(** An environment in which the site is [news.example], the host's clock is
    seven hours ahead of UTC, and the rest is given: what
    [trafilatura.extract] does, what the JSON decodes to, what newspaper
    parses, and what robots.txt says. *)
Definition world (extracted : outcome (option string)) (doc : outcome value)
  (art : outcome article) (robots : outcome bool) : env :=
  {| NEWSPAPER_OK := true;
     urlparse := fun _ => Returned (mk_urlparts "https" "news.example");
     trafilatura_fetch_url := fun _ => Returned (Some "<html>");
     trafilatura_extract := fun _ => extracted;
     json_loads := fun _ => doc;
     Article_parse := fun _ => art;
     Article_nlp := fun a => a;
     local_utcoffset := fun _ => Returned 25200%Z;
     robots_read := fun _ =>
       match robots with
       | Returned b => Returned (fun _ _ => Returned b)
       | Raised e => Raised e
       end;
     persist := fun _ => Returned tt |}.

Definition json_text : outcome (option string) := Returned (Some "{...}").

(** trafilatura found a title, a text and one author, reported as a string
    under [author], which is how its JSON output names authors. *)
Definition one_author_doc : value :=
  VDict [("title", VStr "T"); ("author", VStr "Jane Doe"); ("text", VStr "Body")].

Definition one_author_env : env :=
  world json_text (Returned one_author_doc) (Raised ArticleException)
    (Returned true).

Definition one_author_record : gmap string value :=
  mk_record page (VStr "T") (VStr "Jane Doe") VNone (VStr "Body")
    (VStr "news.example").

(** trafilatura found a date and a site name but neither title nor text;
    newspaper found title and text but no date and no authors. *)
Definition partial_doc : value :=
  VDict [("title", VNone); ("text", VNone); ("date", VStr "2023-05-01");
         ("sitename", VStr "site.com")].

Definition undated_article : article :=
  mk_article "T" [] None "Body".

Definition backfill_env : env :=
  world json_text (Returned partial_doc) (Returned undated_article)
    (Returned true).

Definition partial_record : gmap string value :=
  mk_record page VNone (VList []) (VStr "2023-05-01") VNone (VStr "site.com").

Definition undated_record : gmap string value :=
  mk_record page (VStr "T") (VList []) VNone (VStr "Body")
    (VStr "news.example").

(** newspaper's record with the date that trafilatura had. *)
Definition backfilled_record : gmap string value :=
  mk_record page (VStr "T") (VList []) (VStr "2023-05-01") (VStr "Body")
    (VStr "news.example").

(** Neither adapter finds anything usable: the download of newspaper fails. *)
Definition partial_only_env : env :=
  world json_text (Returned partial_doc) (Raised ArticleException)
    (Returned true).

(** [trafilatura.extract] raises, for instance on a keyword argument that
    the installed release does not accept. *)
Definition extract_raises_env : env :=
  world (Raised TypeError) (Returned one_author_doc)
    (Returned undated_article) (Returned true).

(** newspaper found a publish date without timezone: midnight of
    2024-01-01. *)
Definition naive_date : Datetime.datetime :=
  Datetime.at_time 2024 1 1 0 0 0 None.

Definition naive_date_article : article :=
  mk_article "T" ["X"] (Some naive_date) "Body".

Definition naive_date_env : env :=
  world (Returned None) (Raised JSONDecodeError) (Returned naive_date_article)
    (Returned true).

(** robots.txt cannot be fetched. *)
Definition robots_unreachable_env : env :=
  world json_text (Returned one_author_doc) (Raised ArticleException)
    (Raised URLError).

(** robots.txt disallows everything. *)
Definition robots_deny_env : env :=
  world json_text (Returned one_author_doc) (Raised ArticleException)
    (Returned false).

End Scenario.

(** As the specification words the date rule of the fallback adapter: a date
    with timezone information is converted to UTC and serialised; a date
    without is passed through as returned, not converted. The record goes to
    [json.dumps], so what is passed through is the date as it stands in ISO
    form. *)
Definition spec_newspaper_date (d : Datetime.datetime) : outcome value :=
  match Datetime.tzinfo d with
  | Some off =>
      w ← Datetime.minus_offset d off;
      mret (VStr (Datetime.isoformat (Datetime.mk_datetime w (Some 0%Z))))
  | None => mret (VStr (Datetime.isoformat d))
  end.

(** The [date] of an adapter's result. *)
Definition date_of (o : outcome (option (gmap string value))) : value :=
  match o with
  | Returned r => opt_get r "date"
  | Raised _ => VNone
  end.

(** ** read_urls_from_file *)

Module UrlFile.

(** [line.strip().startswith("#")] on a stripped line *)
Definition is_comment (s : list N) : bool :=
  match s with
  | c :: _ => (c =? 35)%N
  | [] => false
  end.

Definition is_empty (s : list N) : bool :=
  match s with
  | [] => true
  | _ => false
  end.

(** The comprehension of [read_urls_from_file], on the lines that iterating
    over the open file yields (each with its line end):
    [[line.strip() for line in f
      if line.strip() and not line.strip().startswith("#")]]. *)
Definition read_urls_from_file (lines : list (list N)) : list (list N) :=
  map Slug.strip
    (List.filter
       (fun line => negb (is_empty (Slug.strip line))
                    && negb (is_comment (Slug.strip line)))
       lines).

(** A line as [read_urls_from_file] returns them: stripped, not empty, not a
    comment. *)
Definition clean (u : list N) : Prop :=
  Slug.strip u = u /\ is_empty u = false /\ is_comment u = false.

(** A list of URLs written out one per line. *)
Definition to_lines (urls : list (list N)) : list (list N) :=
  map (fun u => u ++ [10%N]) urls.

End UrlFile.

(** ** save_markdown: the name of the file *)

Module Markdown.

Definition slash : N := 47.

Definition starts_with_slash (s : list N) : bool :=
  match s with
  | c :: _ => (c =? slash)%N
  | [] => false
  end.

Definition ends_with_slash (s : list N) : bool :=
  match last s with
  | Some c => (c =? slash)%N
  | None => false
  end.

(** [os.path.join(a, b)] of [posixpath]: an absolute [b] replaces [a];
    otherwise [b] is appended, after a slash unless [a] is empty or ends
    with one. *)
Definition path_join (a b : list N) : list N :=
  if starts_with_slash b then b
  else if UrlFile.is_empty a || ends_with_slash a then a ++ b
  else a ++ slash :: b.

Section FileName.
(** [str.lower], and [hashlib.sha1(s.encode("utf-8")).hexdigest()] of a
    string. *)
Variable str_lower : list N -> list N.
Variable sha1_hexdigest : list N -> list N.

(** [slug = slugify(title)], replaced by the first ten digits of the hash of
    the URL when it is ["untitled"]. *)
Definition file_slug (title url : list N) : list N :=
  let slug := Slug.slugify str_lower title Slug.default_max_len in
  if bool_decide (slug = Slug.untitled)
  then firstn 10 (sha1_hexdigest url)
  else slug.

(** [fname = f"{date_part}{slug}.md"] *)
Definition file_name (date_part title url : list N) : list N :=
  date_part ++ file_slug title url ++ Slug.of_string ".md".

(** [fpath = os.path.join(out_dir, fname)] *)
Definition file_path (out_dir date_part title url : list N) : list N :=
  path_join out_dir (file_name date_part title url).
End FileName.

Definition is_hex_digit (c : N) : bool :=
  Slug.is_digit c || Slug.in_range 97 102 c.

End Markdown.

(** ** append_csv *)

Definition CSV_FIELDNAMES : list string :=
  ["url"; "title"; "date"; "authors"; "sitename"; "text"].

(** [sep.join(items)]: every item must be a string. *)
Fixpoint str_join (sep : string) (items : list value) : outcome string :=
  match items with
  | [] => Returned ""
  | item :: rest =>
      match item with
      | VStr s =>
          match rest with
          | [] => Returned s
          | _ => joined ← str_join sep rest; mret (s +:+ sep +:+ joined)
          end
      | _ => Raised TypeError
      end
  end.

(** [row = dict(record)] with the authors joined when they are a list. *)
Definition csv_rowdict (record : gmap string value)
  : outcome (gmap string value) :=
  match dict_get record "authors" with
  | VList l =>
      joined ← str_join ", " l;
      mret (<["authors" := VStr joined]> record)
  | _ => mret record
  end.

(** [DictWriter.writerow(row)] with the default [extrasaction="raise"] and
    [restval=""]: a key that is not a field name is an error; the cells are
    the row's values in the order of the field names. *)
Definition dictwriter_cells (row : gmap string value) : outcome (list value) :=
  if bool_decide (dom row ⊆ list_to_set CSV_FIELDNAMES)
  then mret ((fun k => default (VStr "") (row !! k)) <$> CSV_FIELDNAMES)
  else Raised ValueError.

Definition csv_row (record : gmap string value) : outcome (list value) :=
  row ← csv_rowdict record;
  dictwriter_cells row.

Definition csv_header : list value := VStr <$> CSV_FIELDNAMES.

(** [append_csv(record, csv_path)] for a path that is given, on the rows of
    the file ([None] when the file does not exist). Opening the file for
    appending creates it and the header is written before the row is built,
    so both stay when building the row fails. *)
Definition append_csv (record : gmap string value)
  (file : option (list (list value)))
  : option (list (list value)) * outcome unit :=
  let opened := match file with
                | Some rows => rows
                | None => [csv_header]
                end in
  match csv_row record with
  | Returned cells => (Some (opened ++ [cells]), Returned tt)
  | Raised e => (Some opened, Raised e)
  end.

(** ** The schema of a record *)

Definition record_keys : gset string :=
  list_to_set ["url"; "title"; "authors"; "date"; "text"; "sitename"].

(** The URL that [main] goes on to fetch: the test of the gate did not say
    skip. *)
Definition passes_gate (E : env) (skip_robots : bool) (url : string) : bool :=
  match skipped E skip_robots url with
  | Returned true => false
  | _ => true
  end.

(** The catalog after [append_csv] was called for each record in turn. *)
Definition append_csv_all (records : list (gmap string value))
  (file : option (list (list value))) : option (list (list value)) :=
  foldl (fun file record => fst (append_csv record file)) file records.

(** ** save_markdown: the title *)

(** [title = record.get("title") or record.get("sitename")
            or urlparse(record["url"]).netloc], the first statement of
    [save_markdown] that can fail, for a record whose [url] is [url]. The
    URL is parsed only when the record names neither title nor site, and
    no [try] is around it. *)
Definition markdown_title (E : env) (url : string)
  (record : gmap string value) : outcome value :=
  let named := py_or (dict_get record "title") (dict_get record "sitename") in
  if truthy named then mret named
  else parsed ← urlparse E url; mret (VStr (netloc parsed)).

(** ** urllib.robotparser *)

(** [RobotFileParser] of the Python standard library, as far as
    [robots_allowed] drives it: [read()] and [can_fetch()]. *)
Module RobotParser.

(** What [urllib.request.urlopen(robots_url)] does inside [read()]: the
    server answers with an error status ([HTTPError]), the request fails
    in another way (no route, refused, timed out: [URLError]), or the file
    arrives, in which case [rules] is what its entries answer for a user
    agent and a URL. *)
Inductive fetched : Type :=
  | HTTPError (code : Z)
  | Failed (e : exn)
  | Body (rules : string -> string -> outcome bool).

(** The attributes of the parser that [can_fetch] looks at. *)
Record parser : Type := mk_parser {
  disallow_all : bool;
  allow_all : bool;
  last_checked : bool;
  entries : string -> string -> outcome bool
}.

(** The parser as [__init__] leaves it: nothing read yet. *)
Definition fresh : parser :=
  mk_parser false false false (fun _ _ => Returned true).

(** [read()]: an [HTTPError] is caught there and never raised. Status 401
    and 403 set [disallow_all], any other 4xx sets [allow_all], and every
    other status, the 5xx among them, leaves the parser as it was. Another
    exception is not caught. A file that arrives is parsed, which sets
    [last_checked]. *)
Definition read (reply : fetched) : outcome parser :=
  match reply with
  | HTTPError code =>
      if ((code =? 401) || (code =? 403))%Z
      then Returned (mk_parser true false false (entries fresh))
      else if ((400 <=? code) && (code <? 500))%Z
           then Returned (mk_parser false true false (entries fresh))
           else Returned fresh
  | Failed e => Raised e
  | Body rules => Returned (mk_parser false false true rules)
  end.

(** [can_fetch(useragent, url)]: as long as nothing was read, no URL is
    allowed. *)
Definition can_fetch (p : parser) (useragent url : string) : outcome bool :=
  if disallow_all p then Returned false
  else if allow_all p then Returned true
  else if negb (last_checked p) then Returned false
  else entries p useragent url.

(** [rp.set_url(robots_url); rp.read()] and the [can_fetch] of the parser
    that results, for a web that answers [reply]. *)
Definition robots_read_of (reply : string -> fetched) (robots_url : string)
  : outcome (string -> string -> outcome bool) :=
  p ← read (reply robots_url);
  mret (can_fetch p).

End RobotParser.

(** ** More scenarios *)

Module Setting.

(** A URL with a bracket that is never closed, which [urlparse] refuses;
    trafilatura still gets a page from it. Saving fails as [save_markdown]
    does, on the URL, for a record that names neither title nor site. *)
Definition unparsable_url_env : env :=
  {| NEWSPAPER_OK := true;
     urlparse := fun _ => Raised ValueError;
     trafilatura_fetch_url := fun _ => Returned (Some "<html>");
     trafilatura_extract := fun _ => Returned (Some "{...}");
     json_loads := fun _ => Returned Scenario.one_author_doc;
     Article_parse := fun _ => Raised ArticleException;
     Article_nlp := fun a => a;
     local_utcoffset := fun _ => Returned 25200%Z;
     robots_read := fun _ => Returned (fun _ _ => Returned true);
     persist := fun r =>
       if truthy (py_or (dict_get r "title") (dict_get r "sitename"))
       then Returned tt else Raised ValueError |}.

Definition unparsable_url : string := "http://[news.example/a".

(** [trafilatura.extract] raises and newspaper cannot download the page:
    neither adapter produces a result. *)
Definition extract_raises_alone_env : env :=
  Scenario.world (Raised TypeError) (Returned Scenario.one_author_doc)
    (Raised ArticleException) (Returned true).

(** The site answers the request for robots.txt with status 503. *)
Definition server_error_env : env :=
  {| NEWSPAPER_OK := true;
     urlparse := fun _ => Returned (mk_urlparts "https" "news.example");
     trafilatura_fetch_url := fun _ => Returned (Some "<html>");
     trafilatura_extract := fun _ => Returned (Some "{...}");
     json_loads := fun _ => Returned Scenario.one_author_doc;
     Article_parse := fun _ => Raised ArticleException;
     Article_nlp := fun a => a;
     local_utcoffset := fun _ => Returned 25200%Z;
     robots_read :=
       RobotParser.robots_read_of (fun _ => RobotParser.HTTPError 503);
     persist := fun _ => Returned tt |}.

(** The site cannot be reached at all when robots.txt is asked for. *)
Definition no_route_env : env :=
  {| NEWSPAPER_OK := true;
     urlparse := fun _ => Returned (mk_urlparts "https" "news.example");
     trafilatura_fetch_url := fun _ => Returned (Some "<html>");
     trafilatura_extract := fun _ => Returned (Some "{...}");
     json_loads := fun _ => Returned Scenario.one_author_doc;
     Article_parse := fun _ => Raised ArticleException;
     Article_nlp := fun a => a;
     local_utcoffset := fun _ => Returned 25200%Z;
     robots_read :=
       RobotParser.robots_read_of (fun _ => RobotParser.Failed URLError);
     persist := fun _ => Returned tt |}.

(** newspaper is not installed; trafilatura finds a date only. *)
Definition no_newspaper_env : env :=
  {| NEWSPAPER_OK := false;
     urlparse := fun _ => Returned (mk_urlparts "https" "news.example");
     trafilatura_fetch_url := fun _ => Returned (Some "<html>");
     trafilatura_extract := fun _ => Returned (Some "{...}");
     json_loads := fun _ => Returned Scenario.partial_doc;
     Article_parse := fun _ => Returned Scenario.undated_article;
     Article_nlp := fun a => a;
     local_utcoffset := fun _ => Returned 25200%Z;
     robots_read := fun _ => Returned (fun _ _ => Returned true);
     persist := fun _ => Returned tt |}.

(** The disk is full from the second record on: saving fails for
    [other_page]. robots.txt allows everything. *)
Definition disk_full_env : env :=
  {| NEWSPAPER_OK := true;
     urlparse := fun _ => Returned (mk_urlparts "https" "news.example");
     trafilatura_fetch_url := fun _ => Returned (Some "<html>");
     trafilatura_extract := fun _ => Returned (Some "{...}");
     json_loads := fun _ => Returned Scenario.one_author_doc;
     Article_parse := fun _ => Raised ArticleException;
     Article_nlp := fun a => a;
     local_utcoffset := fun _ => Returned 25200%Z;
     robots_read := fun _ => Returned (fun _ _ => Returned true);
     persist := fun r =>
       match dict_get r "url" with
       | VStr u =>
           if String.eqb u Scenario.other_page then Raised OSError
           else Returned tt
       | _ => Returned tt
       end |}.

(** Neither adapter gets anything: no page for trafilatura, no download for
    newspaper. *)
Definition nothing_found_env : env :=
  Scenario.world (Returned None) (Raised JSONDecodeError)
    (Raised ArticleException) (Returned true).

(** An article published at 09:30 in Jakarta, and the same moment as a
    newsroom in New York would write it. *)
Definition jakarta_date : Datetime.datetime :=
  Datetime.at_time 2024 3 10 9 30 0 (Some 25200%Z).

Definition new_york_date : Datetime.datetime :=
  Datetime.at_time 2024 3 9 21 30 0 (Some (-18000)%Z).

(** [page] carries the first date and [other_page] the second. *)
Definition two_zones_env : env :=
  {| NEWSPAPER_OK := true;
     urlparse := fun _ => Returned (mk_urlparts "https" "news.example");
     trafilatura_fetch_url := fun _ => Returned None;
     trafilatura_extract := fun _ => Returned None;
     json_loads := fun _ => Raised JSONDecodeError;
     Article_parse := fun url =>
       Returned (mk_article "T" ["X"]
                   (Some (if String.eqb url Scenario.page then jakarta_date
                          else new_york_date))
                   "Body");
     Article_nlp := fun a => a;
     local_utcoffset := fun _ => Returned 25200%Z;
     robots_read := fun _ => Returned (fun _ _ => Returned true);
     persist := fun _ => Returned tt |}.

(** A page dated on the first day of year 1, seven hours ahead of UTC: the
    same moment in UTC would fall in the year before. *)
Definition first_day : Datetime.datetime :=
  Datetime.at_time 1 1 1 0 0 0 (Some 25200%Z).

Definition first_day_env : env :=
  Scenario.world (Returned None) (Raised JSONDecodeError)
    (Returned (mk_article "T" ["X"] (Some first_day) "Body")) (Returned true).

End Setting.

(** * Properties *)

(** ** Dictionaries and truth values *)

Lemma dict_truthy_lookup (d : gmap string value) k v :
  d !! k = Some v -> dict_truthy d = true.
Proof.
  intros Hk. unfold dict_truthy.
  rewrite bool_decide_eq_false_2; [reflexivity|].
  intros ->. rewrite lookup_empty in Hk. discriminate.
Qed.

(** A true [d.get(k)] means the key is there, with that value. *)
Lemma dict_get_truthy (d : gmap string value) k :
  truthy (dict_get d k) = true -> d !! k = Some (dict_get d k).
Proof.
  unfold dict_get. destruct (d !! k); simpl; [reflexivity | discriminate].
Qed.

Lemma sufficient_Some r d :
  sufficient r = Some d ->
  r = Some d /\ truthy (dict_get d "title") = true
  /\ truthy (dict_get d "text") = true.
Proof.
  unfold sufficient. destruct r as [d'|]; [|discriminate].
  destruct (dict_truthy d' && truthy (dict_get d' "title")
            && truthy (dict_get d' "text")) eqn:Hs; [|discriminate].
  intros [= <-]. apply andb_prop in Hs as [Hs ?]. apply andb_prop in Hs as [? ?].
  auto.
Qed.

Lemma sufficient_intro d :
  truthy (dict_get d "title") = true ->
  truthy (dict_get d "text") = true ->
  sufficient (Some d) = Some d.
Proof.
  intros Ht Hx. unfold sufficient.
  rewrite (dict_truthy_lookup d "title" _ (dict_get_truthy _ _ Ht)), Ht, Hx.
  reflexivity.
Qed.

(** Insufficient is: absent, or title or text empty. *)
Lemma sufficient_None r :
  sufficient r = None <->
  truthy (opt_get r "title") && truthy (opt_get r "text") = false.
Proof.
  unfold sufficient. destruct r as [d|]; simpl; [|done].
  destruct (truthy (dict_get d "title")) eqn:Ht; simpl.
  - rewrite (dict_truthy_lookup d "title" _ (dict_get_truthy _ _ Ht)). simpl.
    destruct (truthy (dict_get d "text")); done.
  - rewrite andb_false_r. done.
Qed.

(** ** The call log *)

Section CoalesceFacts.
Variable primary : string -> outcome (option (gmap string value)).
Variable secondary : string -> outcome (option (gmap string value)).

Lemma coalesce_with_primary_raises url e log :
  primary url = Raised e ->
  coalesce_with primary secondary url log
  = (Raised e, log ++ [CallTrafilatura url]).
Proof.
  intros Hp. unfold coalesce_with, mbind, traced_bind, invoke.
  rewrite Hp. reflexivity.
Qed.

Lemma coalesce_with_sufficient url data d log :
  primary url = Returned data -> sufficient data = Some d ->
  coalesce_with primary secondary url log
  = (Returned d, log ++ [CallTrafilatura url]).
Proof.
  intros Hp Hs. unfold coalesce_with, mbind, traced_bind, invoke.
  rewrite Hp, Hs. reflexivity.
Qed.

Lemma coalesce_with_fallback url data fallback log :
  primary url = Returned data -> sufficient data = None ->
  secondary url = Returned fallback ->
  coalesce_with primary secondary url log
  = (Returned match sufficient fallback with
              | Some fb => backfill data fb
              | None => or_stub data url
              end,
     log ++ [CallTrafilatura url; CallNewspaper url]).
Proof.
  intros Hp Hs Hf. unfold coalesce_with, mbind, traced_bind, invoke.
  rewrite Hp, Hs, Hf. rewrite <- app_assoc. simpl.
  destruct (sufficient fallback); reflexivity.
Qed.

Lemma coalesce_with_fallback_raises url data e log :
  primary url = Returned data -> sufficient data = None ->
  secondary url = Raised e ->
  coalesce_with primary secondary url log
  = (Raised e, log ++ [CallTrafilatura url; CallNewspaper url]).
Proof.
  intros Hp Hs Hf. unfold coalesce_with, mbind, traced_bind, invoke.
  rewrite Hp, Hs, Hf. rewrite <- app_assoc. reflexivity.
Qed.
End CoalesceFacts.

(** ** Primary sufficient *)

(** C1. When the primary adapter returns a record whose title and text are
    both non-empty, [coalesce_article] returns exactly that record, and the
    only adapter call made is the one to the primary: the outcome is the
    same for every fallback adapter. *)
Theorem coalesce_primary_sufficient
  (primary : string -> outcome (option (gmap string value)))
  (url : string) (d : gmap string value) :
  primary url = Returned (Some d) ->
  truthy (dict_get d "title") = true ->
  truthy (dict_get d "text") = true ->
  forall secondary log,
    coalesce_with primary secondary url log
    = (Returned d, log ++ [CallTrafilatura url]).
Proof.
  intros Hp Ht Hx secondary log.
  apply coalesce_with_sufficient with (data := Some d); [exact Hp|].
  by apply sufficient_intro.
Qed.

(** ** Back-fill *)

Lemma backfill_key_lookup (d fb : gmap string value) k k' :
  backfill_key d fb k !! k'
  = if decide (k = k')
    then (if negb (truthy (dict_get fb k)) && truthy (dict_get d k)
          then Some (dict_get d k) else fb !! k)
    else fb !! k'.
Proof.
  unfold backfill_key.
  destruct (negb (truthy (dict_get fb k)) && truthy (dict_get d k));
    case_decide; subst; try reflexivity.
  - apply lookup_insert_eq.
  - by apply lookup_insert_ne.
Qed.

Lemma backfill_key_get_ne (d fb : gmap string value) k k' :
  k ≠ k' -> dict_get (backfill_key d fb k) k' = dict_get fb k'.
Proof.
  intros Hne. unfold dict_get at 1.
  rewrite backfill_key_lookup, decide_False by assumption. reflexivity.
Qed.

(** The loop over a list of distinct keys treats each key on its own. *)
Lemma foldl_backfill_key_lookup (d : gmap string value) ks :
  NoDup ks ->
  forall (fb : gmap string value) k',
    foldl (backfill_key d) fb ks !! k'
    = if decide (k' ∈ ks) then backfill_key d fb k' !! k' else fb !! k'.
Proof.
  induction 1 as [|k ks Hk Hnd IH]; intros fb k'.
  - reflexivity.
  - cbn [foldl]. rewrite IH. destruct (decide (k' ∈ ks)) as [Hin|Hin].
    + assert (k ≠ k') by (intros ->; contradiction).
      rewrite decide_True by (right; exact Hin).
      rewrite (backfill_key_lookup d (backfill_key d fb k) k' k').
      rewrite (backfill_key_lookup d fb k' k').
      rewrite backfill_key_get_ne by assumption.
      rewrite (backfill_key_lookup d fb k k'), (decide_False (P := k = k'))
        by assumption.
      reflexivity.
    + destruct (decide (k = k')) as [->|Hne].
      * rewrite decide_True by left. reflexivity.
      * rewrite decide_False by (intros [->|?]%elem_of_cons; contradiction).
        rewrite backfill_key_lookup, decide_False by assumption.
        reflexivity.
Qed.

Lemma backfill_keys_NoDup : NoDup backfill_keys.
Proof. unfold backfill_keys. compute_done. Qed.

(** What [backfill] leaves under each key. *)
Lemma backfill_lookup data (fb : gmap string value) k :
  backfill data fb !! k
  = if decide (k ∈ backfill_keys)
    then (if negb (truthy (dict_get fb k)) && truthy (opt_get data k)
          then opt_lookup data k else fb !! k)
    else fb !! k.
Proof.
  unfold backfill. destruct data as [d|]; cbn [opt_get opt_lookup].
  - destruct (dict_truthy d) eqn:Hd.
    + rewrite foldl_backfill_key_lookup by apply backfill_keys_NoDup.
      case_decide; [|reflexivity].
      rewrite backfill_key_lookup, decide_True by reflexivity.
      destruct (truthy (dict_get d k)) eqn:Hk.
      * by rewrite (dict_get_truthy _ _ Hk).
      * by rewrite andb_false_r.
    + unfold dict_truthy in Hd. apply negb_false_iff, bool_decide_eq_true in Hd.
      subst d. unfold dict_get at 2. rewrite lookup_empty. simpl.
      rewrite andb_false_r. by case_decide.
  - rewrite andb_false_r. by case_decide.
Qed.

Lemma backfill_lookup_other data (fb : gmap string value) k :
  k ∉ backfill_keys -> backfill data fb !! k = fb !! k.
Proof. intros Hk. rewrite backfill_lookup. by rewrite decide_False. Qed.

Lemma backfill_get_other data (fb : gmap string value) k :
  k ∉ backfill_keys -> dict_get (backfill data fb) k = dict_get fb k.
Proof. intros Hk. unfold dict_get. by rewrite backfill_lookup_other. Qed.

Lemma title_not_backfilled : "title" ∉ backfill_keys.
Proof. unfold backfill_keys. compute_done. Qed.

Lemma text_not_backfilled : "text" ∉ backfill_keys.
Proof. unfold backfill_keys. compute_done. Qed.

Lemma url_not_backfilled : "url" ∉ backfill_keys.
Proof. unfold backfill_keys. compute_done. Qed.

(** A sufficient record stays sufficient when it is back-filled. *)
Lemma backfill_sufficient data fb :
  sufficient (Some fb) = Some fb ->
  sufficient (Some (backfill data fb)) = Some (backfill data fb).
Proof.
  intros (_ & Ht & Hx)%sufficient_Some. apply sufficient_intro.
  - by rewrite backfill_get_other by apply title_not_backfilled.
  - by rewrite backfill_get_other by apply text_not_backfilled.
Qed.

(** Back-filling a second time from the same primary changes nothing: a
    field that was copied is no longer empty. *)
Lemma backfill_idempotent data (fb : gmap string value) :
  backfill data (backfill data fb) = backfill data fb.
Proof.
  apply map_eq. intros k. rewrite backfill_lookup.
  case_decide as Hk; [|reflexivity].
  destruct (negb (truthy (dict_get (backfill data fb) k))
            && truthy (opt_get data k)) eqn:Hc; [|reflexivity].
  apply andb_prop in Hc as [Hempty Hprim].
  rewrite backfill_lookup, decide_True by assumption.
  destruct (negb (truthy (dict_get fb k)) && truthy (opt_get data k)) eqn:Hc';
    [reflexivity|].
  exfalso. rewrite Hprim, andb_true_r in Hc'.
  unfold dict_get in Hempty at 1.
  rewrite backfill_lookup, decide_True in Hempty by assumption.
  rewrite Hprim, Hc' in Hempty. simpl in Hempty.
  fold (dict_get fb k) in Hempty. congruence.
Qed.

(** ** Fallback sufficient *)

(** C2. When the primary result is insufficient (absent, or its title or its
    text is empty) and the fallback has a non-empty title and a non-empty
    text, the returned record has the fallback's title and text; under each
    of [date], [authors] and [sitename] it has the primary's value when the
    fallback's is empty or absent and the primary's is not empty, and the
    fallback's otherwise; no other key is touched, so title and text never
    come from the primary. *)
Theorem coalesce_fallback_backfill
  (primary secondary : string -> outcome (option (gmap string value)))
  (url : string) (data : option (gmap string value))
  (fb : gmap string value) :
  primary url = Returned data ->
  truthy (opt_get data "title") && truthy (opt_get data "text") = false ->
  secondary url = Returned (Some fb) ->
  truthy (dict_get fb "title") = true ->
  truthy (dict_get fb "text") = true ->
  exists r : gmap string value,
    (forall log,
        coalesce_with primary secondary url log
        = (Returned r, log ++ [CallTrafilatura url; CallNewspaper url]))
    /\ r !! "title" = fb !! "title"
    /\ r !! "text" = fb !! "text"
    /\ (forall k, k ∈ ["date"; "authors"; "sitename"] ->
          r !! k = if negb (truthy (dict_get fb k)) && truthy (opt_get data k)
                   then opt_lookup data k
                   else fb !! k)
    /\ (forall k, k ∉ ["date"; "authors"; "sitename"] -> r !! k = fb !! k).
Proof.
  intros Hp Hins Hs Ht Hx. exists (backfill data fb).
  split; [|repeat split].
  - intros log.
    rewrite (coalesce_with_fallback primary secondary url data (Some fb))
      by (try apply sufficient_None; assumption).
    by rewrite sufficient_intro.
  - apply backfill_lookup_other, title_not_backfilled.
  - apply backfill_lookup_other, text_not_backfilled.
  - intros k Hk. rewrite backfill_lookup. by rewrite decide_True.
  - intros k Hk. by apply backfill_lookup_other.
Qed.

(** ** What the adapters return *)

Lemma mk_record_url url title authors date text sitename :
  mk_record url title authors date text sitename !! "url" = Some (VStr url).
Proof. unfold mk_record. by simplify_map_eq. Qed.

(** A result of the primary adapter is a record built by [mk_record] for
    this URL. *)
Lemma fetch_with_trafilatura_Some E url d :
  fetch_with_trafilatura E url = Returned (Some d) ->
  exists title authors date text sitename,
    d = mk_record url title authors date text sitename.
Proof.
  unfold fetch_with_trafilatura, mbind, outcome_bind, obind, mret, outcome_ret,
    try_except.
  intros H. repeat case_match; simplify_eq; eauto 6.
Qed.

Lemma fetch_with_newspaper_Some E url d :
  fetch_with_newspaper E url = Returned (Some d) ->
  exists title authors date text sitename,
    d = mk_record url title authors date text sitename.
Proof.
  unfold fetch_with_newspaper, mbind, outcome_bind, obind, mret, outcome_ret,
    try_except.
  intros H. repeat case_match; simplify_eq; eauto 6.
Qed.

(** The authors of a record of the fallback adapter are a list of
    strings. *)
Lemma fetch_with_newspaper_authors E url d :
  fetch_with_newspaper E url = Returned (Some d) ->
  is_list_of_str (dict_get d "authors") = true.
Proof.
  unfold fetch_with_newspaper, mbind, outcome_bind, obind, mret, outcome_ret,
    try_except.
  intros H. repeat case_match; simplify_eq;
    (unfold dict_get, mk_record; simplify_map_eq; cbn [default is_list_of_str];
     by induction (art_authors _) as [|a l IH]).
Qed.

(** The fallback adapter returns, whatever the libraries do. *)
Lemma fetch_with_newspaper_returns E url :
  exists r, fetch_with_newspaper E url = Returned r.
Proof.
  unfold fetch_with_newspaper, mret, outcome_ret.
  destruct (negb (NEWSPAPER_OK E)); eauto.
Qed.

(** The primary adapter returns when neither of the two trafilatura calls
    raises. *)
Lemma fetch_with_trafilatura_returns E url :
  raises (trafilatura_fetch_url E url) = false ->
  (forall page, raises (trafilatura_extract E page) = false) ->
  exists r, fetch_with_trafilatura E url = Returned r.
Proof.
  intros Hf He. unfold fetch_with_trafilatura, mbind, outcome_bind, obind,
    mret, outcome_ret.
  destruct (trafilatura_fetch_url E url) as [downloaded|]; [|discriminate].
  destruct (nonempty downloaded) as [page|]; [|eauto].
  specialize (He page).
  destruct (trafilatura_extract E page) as [result_json|]; [|discriminate].
  destruct (nonempty result_json); eauto.
Qed.

Lemma adapter_record_truthy url title authors date text sitename :
  dict_truthy (mk_record url title authors date text sitename) = true.
Proof. eapply dict_truthy_lookup, mk_record_url. Qed.

Lemma stub_lookup url k :
  stub url !! k = if decide (k = "url") then Some (VStr url) else None.
Proof.
  unfold stub. case_decide as Hk.
  - subst. apply lookup_singleton_eq.
  - by apply lookup_singleton_ne.
Qed.

(** ** Neither sufficient *)

(** C3 fails where the primary adapter raises. [trafilatura.extract] raises
    and newspaper cannot download the page, so neither adapter produces a
    sufficient result; yet [coalesce_article] returns neither the primary's
    record nor the stub: the exception leaves it before the fallback is
    tried, and [main] saves nothing for the URL. It is the slip of C5, the
    two trafilatura calls made before the [try]. *)
Theorem coalesce_neither_sufficient_raises :
  fetch_with_trafilatura Setting.extract_raises_alone_env Scenario.page
  = Raised TypeError
  /\ fetch_with_newspaper Setting.extract_raises_alone_env Scenario.page
     = Returned None
  /\ coalesce_article Setting.extract_raises_alone_env Scenario.page []
     = (Raised TypeError, [CallTrafilatura Scenario.page])
  /\ main_loop Setting.extract_raises_alone_env true [Scenario.page]
     = ([], Raised TypeError).
Proof. repeat split. Qed.

(** Where the primary adapter does return, the last resort is as intended:
    when neither adapter produces a record with non-empty title and text,
    [coalesce_article] returns the primary adapter's record if there is one,
    however partial, and otherwise the stub, whose only field is the URL. *)
Theorem coalesce_neither_sufficient (E : env) (url : string)
  (data fallback : option (gmap string value)) :
  fetch_with_trafilatura E url = Returned data ->
  fetch_with_newspaper E url = Returned fallback ->
  truthy (opt_get data "title") && truthy (opt_get data "text") = false ->
  truthy (opt_get fallback "title") && truthy (opt_get fallback "text")
  = false ->
  (forall log,
      coalesce_article E url log
      = (Returned match data with
                  | Some d => d
                  | None => stub url
                  end,
         log ++ [CallTrafilatura url; CallNewspaper url]))
  /\ dom (stub url) = {[ "url" ]}
  /\ stub url !! "url" = Some (VStr url).
Proof.
  intros Hp Hs Hd Hf. split; [|split].
  - intros log. unfold coalesce_article.
    rewrite (coalesce_with_fallback _ _ url data fallback)
      by (try apply sufficient_None; assumption).
    apply sufficient_None in Hf. rewrite Hf. unfold or_stub.
    destruct data as [d|]; [|reflexivity].
    destruct (fetch_with_trafilatura_Some _ _ _ Hp) as (?&?&?&?&?&->).
    by rewrite adapter_record_truthy.
  - unfold stub. by rewrite dom_singleton_L.
  - by rewrite stub_lookup.
Qed.

(** ** Determinism *)

Lemma sufficient_fallback_after data fallback :
  sufficient (fallback_after data fallback)
  = match sufficient fallback with
    | Some fb => Some (backfill data fb)
    | None => None
    end.
Proof.
  unfold fallback_after. destruct (sufficient fallback) as [fb|] eqn:Hs.
  - apply sufficient_Some in Hs as (-> & Ht & Hx).
    apply backfill_sufficient. by apply sufficient_intro.
  - exact Hs.
Qed.

(** C6. The record returned is a function of the two adapter results alone:
    two runs in which the adapters give the same results for the URL return
    the same record (or raise the same exception), whatever the adapters do
    elsewhere and whatever was logged before; and this is still so when the
    second run is given the fallback's dictionary as the first run left it,
    back-filled in place. *)
Theorem coalesce_deterministic
  (p1 s1 p2 s2 : string -> outcome (option (gmap string value)))
  (url : string) (log1 log2 : list adapter_call) :
  p1 url = p2 url ->
  (s1 url = s2 url
   \/ exists data fallback,
        p1 url = Returned data /\ s1 url = Returned fallback
        /\ s2 url = Returned (fallback_after data fallback)) ->
  fst (coalesce_with p1 s1 url log1) = fst (coalesce_with p2 s2 url log2).
Proof.
  intros Hp Hs.
  destruct (p1 url) as [data|e] eqn:Hp1; symmetry in Hp.
  2: { by rewrite !(coalesce_with_primary_raises _ _ url e). }
  destruct (sufficient data) as [d|] eqn:Hd.
  { by rewrite !(coalesce_with_sufficient _ _ url data d). }
  destruct Hs as [Hs|(data' & fallback & [= <-] & Hs1 & Hs2)].
  - destruct (s1 url) as [fallback|e] eqn:Hs1; symmetry in Hs.
    + by rewrite !(coalesce_with_fallback _ _ url data fallback).
    + by rewrite !(coalesce_with_fallback_raises _ _ url data e).
  - rewrite (coalesce_with_fallback p1 s1 url data fallback) by assumption.
    rewrite (coalesce_with_fallback p2 s2 url data
               (fallback_after data fallback)) by assumption.
    rewrite sufficient_fallback_after. simpl.
    destruct (sufficient fallback); [|reflexivity].
    by rewrite backfill_idempotent.
Qed.

(** ** The url field *)

Lemma coalesce_article_url E url r log log' :
  coalesce_article E url log = (Returned r, log') ->
  r !! "url" = Some (VStr url).
Proof.
  intros Hr. unfold coalesce_article in Hr.
  destruct (fetch_with_trafilatura E url) as [data|e] eqn:Hp.
  2: { by rewrite (coalesce_with_primary_raises _ _ url e) in Hr. }
  destruct (sufficient data) as [d|] eqn:Hd.
  { rewrite (coalesce_with_sufficient _ _ url data d) in Hr by assumption.
    apply sufficient_Some in Hd as (-> & _). simplify_eq.
    destruct (fetch_with_trafilatura_Some _ _ _ Hp) as (?&?&?&?&?&->).
    apply mk_record_url. }
  destruct (fetch_with_newspaper_returns E url) as [fallback Hs].
  rewrite (coalesce_with_fallback _ _ url data fallback) in Hr by assumption.
  destruct (sufficient fallback) as [fb|] eqn:Hf; simplify_eq.
  - apply sufficient_Some in Hf as (-> & _).
    rewrite backfill_lookup_other by apply url_not_backfilled.
    destruct (fetch_with_newspaper_Some _ _ _ Hs) as (?&?&?&?&?&->).
    apply mk_record_url.
  - unfold or_stub. destruct data as [d|]; [|by rewrite stub_lookup].
    destruct (fetch_with_trafilatura_Some _ _ _ Hp) as (?&?&?&?&?&->).
    rewrite adapter_record_truthy. apply mk_record_url.
Qed.

(** C7. Every record [coalesce_article] returns, be it the primary's, the
    back-filled fallback's or the stub, has the input URL under [url]; and
    back-filling leaves [url] as it was in the fallback's record. *)
Theorem coalesce_url_kept (E : env) (url : string)
  (r : gmap string value) (log log' : list adapter_call) :
  coalesce_article E url log = (Returned r, log') ->
  r !! "url" = Some (VStr url)
  /\ forall data fb, backfill data fb !! "url" = fb !! "url".
Proof.
  intros Hr. split.
  - exact (coalesce_article_url E url r log log' Hr).
  - intros. apply backfill_lookup_other, url_not_backfilled.
Qed.

(** When neither trafilatura call raises, the coalescer returns a record. *)
Lemma coalesce_article_returns E url log :
  raises (trafilatura_fetch_url E url) = false ->
  (forall page, raises (trafilatura_extract E page) = false) ->
  exists r log', coalesce_article E url log = (Returned r, log').
Proof.
  intros Hf He.
  destruct (fetch_with_trafilatura_returns E url Hf He) as [data Hp].
  destruct (fetch_with_newspaper_returns E url) as [fallback Hs].
  unfold coalesce_article.
  destruct (sufficient data) as [d|] eqn:Hd.
  - rewrite (coalesce_with_sufficient _ _ url data d) by assumption. eauto.
  - rewrite (coalesce_with_fallback _ _ url data fallback) by assumption.
    eauto.
Qed.

(** ** slugify *)

Module SlugFacts.
Import Slug.

Lemma rstrip_by_forallb (q p : N -> bool) s :
  forallb q s = true -> forallb q (rstrip_by p s) = true.
Proof.
  induction s as [|c s IH]; simpl; [done|].
  intros [Hc Hs]%andb_prop. specialize (IH Hs).
  destruct (rstrip_by p s) as [|c' r].
  - destruct (p c); simpl; [done | by rewrite Hc].
  - change (forallb q (c :: c' :: r)) with (q c && forallb q (c' :: r)).
    by rewrite Hc, IH.
Qed.

Lemma rstrip_by_length (p : N -> bool) s :
  (length (rstrip_by p s) <= length s)%nat.
Proof.
  induction s as [|c s IH]; simpl; [lia|].
  destruct (rstrip_by p s) as [|c' r].
  - destruct (p c); simpl; lia.
  - simpl in *. lia.
Qed.

Lemma firstn_forallb (q : N -> bool) n s :
  forallb q s = true -> forallb q (firstn n s) = true.
Proof.
  revert n. induction s as [|c s IH]; intros [|n]; simpl; try done.
  intros [Hc Hs]%andb_prop. by rewrite Hc, IH.
Qed.

Lemma slice_to_forallb (q : N -> bool) s n :
  forallb q s = true -> forallb q (slice_to s n) = true.
Proof. unfold slice_to. destruct (0 <=? n)%Z; apply firstn_forallb. Qed.

Lemma slice_to_length s n :
  (0 <= n)%Z -> (Z.of_nat (length (slice_to s n)) <= n)%Z.
Proof.
  intros Hn. unfold slice_to.
  rewrite (proj2 (Z.leb_le 0 n)) by assumption.
  pose proof (firstn_le_length (Z.to_nat n) s). lia.
Qed.

Lemma sub_unwanted_kept s : forallb kept (sub_unwanted s) = true.
Proof.
  unfold sub_unwanted. induction s as [|c s IH]; simpl; [done|].
  destruct (kept c) eqn:Hc; simpl; [by rewrite Hc|done].
Qed.

(** A kept character that is not a space is a character of the slug. *)
Lemma kept_not_space c : kept c = true -> is_space c = false -> slug_char c = true.
Proof. unfold kept. intros H Hs. rewrite Hs, orb_false_r in H. exact H. Qed.

Lemma sub_spaces_from_slug_chars in_run s :
  forallb kept s = true -> forallb slug_char (sub_spaces_from in_run s) = true.
Proof.
  revert in_run. induction s as [|c s IH]; intros in_run; simpl; [done|].
  intros [Hc Hs]%andb_prop.
  destruct (is_space c) eqn:Hsp.
  - destruct in_run; simpl; by rewrite IH.
  - simpl. by rewrite (kept_not_space c Hc Hsp), IH.
Qed.

Section WithLower.
Variable str_lower : list N -> list N.

Lemma slug_text_slug_chars text max_len :
  forallb slug_char (slug_text str_lower text max_len) = true.
Proof.
  unfold slug_text.
  pose proof (sub_spaces_from_slug_chars false _
                (sub_unwanted_kept (str_lower (strip text)))) as Hall.
  fold (sub_spaces (sub_unwanted (str_lower (strip text)))) in Hall.
  destruct (_ >? _)%Z; [|exact Hall].
  by apply rstrip_by_forallb, slice_to_forallb.
Qed.

Lemma slug_text_length text max_len :
  (0 <= max_len)%Z ->
  (Z.of_nat (length (slug_text str_lower text max_len)) <= max_len)%Z.
Proof.
  intros Hm. unfold slug_text.
  destruct (_ >? _)%Z eqn:Hlen.
  - pose proof (rstrip_by_length is_hyphen_or_underscore
                  (slice_to (sub_spaces (sub_unwanted (str_lower (strip text))))
                     max_len)).
    pose proof (slice_to_length
                  (sub_spaces (sub_unwanted (str_lower (strip text))))
                  max_len Hm).
    lia.
  - lia.
Qed.

Lemma slugify_cases text max_len :
  (slug_text str_lower text max_len = []
   /\ slugify str_lower text max_len = untitled)
  \/ (slug_text str_lower text max_len <> []
      /\ slugify str_lower text max_len = slug_text str_lower text max_len).
Proof.
  unfold slugify. destruct (slug_text str_lower text max_len); [left|right]; done.
Qed.

End WithLower.
End SlugFacts.

(** C10. With the default [max_len] of 80, [slugify] returns a string that is
    not empty, has at most 80 characters, and is made of lowercase letters,
    digits, hyphens, underscores and dots only; when the text reduces to
    nothing the result is ["untitled"]. This holds whatever [str.lower]
    does to the text. *)
Theorem slugify_default_max_len (str_lower : list N -> list N) (text : list N) :
  (0 < length (Slug.slugify str_lower text Slug.default_max_len))%nat
  /\ (length (Slug.slugify str_lower text Slug.default_max_len) <= 80)%nat
  /\ forallb Slug.slug_char (Slug.slugify str_lower text Slug.default_max_len)
     = true
  /\ (Slug.slug_text str_lower text Slug.default_max_len = [] ->
      Slug.slugify str_lower text Slug.default_max_len
      = Slug.of_string "untitled").
Proof.
  pose proof (SlugFacts.slug_text_slug_chars str_lower text
                Slug.default_max_len) as Hchars.
  pose proof (SlugFacts.slug_text_length str_lower text
                Slug.default_max_len ltac:(done)) as Hlen.
  destruct (SlugFacts.slugify_cases str_lower text Slug.default_max_len)
    as [[Hnil ->]|[Hne ->]]; unfold Slug.default_max_len in *.
  - split; [|split; [|split]]; [cbn; lia | cbn; lia | reflexivity | done].
  - split; [|split; [|split]]; [| lia | exact Hchars | done].
    destruct (Slug.slug_text str_lower text 80); [done | simpl; lia].
Qed.

(** The text [?!] keeps no character and becomes ["untitled"]. *)
Lemma slugify_default_max_len_witness :
  Slug.slug_text Slug.ascii_lower (Slug.of_string "?!") Slug.default_max_len
  = []
  /\ Slug.slugify Slug.ascii_lower (Slug.of_string "?!") Slug.default_max_len
     = Slug.of_string "untitled".
Proof.
  split; [reflexivity|].
  apply (slugify_default_max_len Slug.ascii_lower (Slug.of_string "?!")).
  reflexivity.
Defined.

(** ** The authors field of the final record *)

(** [coalesce_article(url) or {"url": url}] is the coalesced record: it is
    never empty. *)
Lemma final_record_inv E url r :
  final_record E url = Returned r ->
  exists c, result_of (coalesce_article E url) = Returned c
            /\ r = finalize c.
Proof.
  unfold final_record, result_of, mbind, outcome_bind, obind, mret, outcome_ret.
  destruct (coalesce_article E url []) as [[c|e] log'] eqn:Hc; simpl;
    [|discriminate].
  intros [= <-]. exists c. split; [reflexivity|].
  unfold or_stub.
  by rewrite (dict_truthy_lookup c "url" _ (coalesce_article_url _ _ _ _ _ Hc)).
Qed.

Lemma finalize_authors (c : gmap string value) :
  finalize c !! "authors"
  = Some (if truthy (dict_get c "authors") then dict_get c "authors"
          else VList []).
Proof.
  unfold finalize. destruct (truthy (dict_get c "authors")) eqn:Ha; simpl.
  - by apply dict_get_truthy.
  - apply lookup_insert_eq.
Qed.

Lemma front_matter_authors_not_str (r : gmap string value) :
  is_str (front_matter_authors r) = false.
Proof.
  unfold front_matter_authors.
  destruct (is_str (py_or (dict_get r "authors") (VList []))) eqn:Hs;
    [reflexivity | exact Hs].
Qed.

(** C4, as the code has it. The final record always has an [authors] field:
    the coalesced record's value when that is not empty, kept as the adapter
    delivered it, and the empty list otherwise. A single author that
    trafilatura reports as a string therefore stays a string in the record;
    it is only in the front matter written by [save_markdown] that the
    authors are never a bare string. *)
Theorem final_record_authors (E : env) (url : string)
  (r : gmap string value) :
  final_record E url = Returned r ->
  exists c : gmap string value,
    result_of (coalesce_article E url) = Returned c
    /\ r !! "authors"
       = Some (if truthy (dict_get c "authors") then dict_get c "authors"
               else VList [])
    /\ is_str (front_matter_authors r) = false.
Proof.
  intros (c & Hc & ->)%final_record_inv. exists c.
  split; [exact Hc|]. split.
  - apply finalize_authors.
  - apply front_matter_authors_not_str.
Qed.

Lemma final_record_authors_witness :
  exists c : gmap string value,
    result_of (coalesce_article Scenario.backfill_env Scenario.page)
    = Returned c
    /\ Scenario.backfilled_record !! "authors"
       = Some (if truthy (dict_get c "authors") then dict_get c "authors"
               else VList [])
    /\ is_str (front_matter_authors Scenario.backfilled_record) = false.
Proof.
  apply (final_record_authors Scenario.backfill_env Scenario.page).
  vm_compute. reflexivity.
Defined.

(** The claim of C4 fails where trafilatura names one author: the final
    record holds the bare string. *)
Lemma final_record_authors_bare_string :
  final_record Scenario.one_author_env Scenario.page
  = Returned Scenario.one_author_record
  /\ Scenario.one_author_record !! "authors" = Some (VStr "Jane Doe")
  /\ is_list (VStr "Jane Doe") = false.
Proof. vm_compute. repeat split. Qed.

(** ** Failures inside the adapters *)

(** The fallback adapter turns every failure into [None]: a failed download
    or parse, a date out of range, a URL that cannot be parsed. *)
Lemma fetch_with_newspaper_failure E url :
  NEWSPAPER_OK E = false
  \/ raises (Article_parse E url) = true
  \/ raises (urlparse E url) = true ->
  fetch_with_newspaper E url = Returned None.
Proof.
  unfold fetch_with_newspaper, mbind, outcome_bind, obind, mret, outcome_ret,
    try_except.
  intros [->|[H|H]]; [reflexivity| |]; destruct (negb (NEWSPAPER_OK E));
    try reflexivity; f_equal.
  - by destruct (Article_parse E url).
  - destruct (urlparse E url); [discriminate|]. by repeat case_match.
Qed.

(** The primary adapter turns into [None] a download or an extraction that
    yields nothing, and every failure while decoding the JSON and building
    the record. *)
Lemma fetch_with_trafilatura_no_download E url downloaded :
  trafilatura_fetch_url E url = Returned downloaded ->
  nonempty downloaded = None ->
  fetch_with_trafilatura E url = Returned None.
Proof.
  intros Hf Hn. unfold fetch_with_trafilatura. rewrite Hf.
  cbn [mbind outcome_bind obind]. by rewrite Hn.
Qed.

Lemma fetch_with_trafilatura_no_extract E url downloaded page result_json :
  trafilatura_fetch_url E url = Returned downloaded ->
  nonempty downloaded = Some page ->
  trafilatura_extract E page = Returned result_json ->
  nonempty result_json = None ->
  fetch_with_trafilatura E url = Returned None.
Proof.
  intros Hf Hn He Hr. unfold fetch_with_trafilatura. rewrite Hf.
  cbn [mbind outcome_bind obind]. rewrite Hn, He.
  cbn [mbind outcome_bind obind]. by rewrite Hr.
Qed.

Lemma fetch_with_trafilatura_bad_json E url downloaded page result_json text :
  trafilatura_fetch_url E url = Returned downloaded ->
  nonempty downloaded = Some page ->
  trafilatura_extract E page = Returned result_json ->
  nonempty result_json = Some text ->
  raises (json_loads E text) = true
  \/ (exists data, json_loads E text = Returned data
                   /\ raises (value_get data "title") = true) ->
  fetch_with_trafilatura E url = Returned None.
Proof.
  intros Hf Hn He Hr Hj. unfold fetch_with_trafilatura. rewrite Hf.
  cbn [mbind outcome_bind obind]. rewrite Hn, He.
  cbn [mbind outcome_bind obind]. rewrite Hr.
  destruct Hj as [Hj|(data & -> & Hd)].
  - by destruct (json_loads E text).
  - by destruct data.
Qed.

(** C5 fails for the primary adapter: the calls to [trafilatura.fetch_url]
    and [trafilatura.extract] are made before the [try], so an exception of
    theirs leaves [fetch_with_trafilatura], leaves [coalesce_article] before
    the fallback is tried, and ends the loop of [main] with no record saved,
    not even for the URLs that follow. *)
Theorem fetch_with_trafilatura_lets_exception_out :
  fetch_with_trafilatura Scenario.extract_raises_env Scenario.page
  = Raised TypeError
  /\ coalesce_article Scenario.extract_raises_env Scenario.page []
     = (Raised TypeError, [CallTrafilatura Scenario.page])
  /\ main_loop Scenario.extract_raises_env true
       [Scenario.page; Scenario.other_page]
     = ([], Raised TypeError).
Proof. repeat split. Qed.

(** Any exception of [trafilatura.fetch_url] is let out as it is. *)
Lemma fetch_with_trafilatura_fetch_url_raises E url e :
  trafilatura_fetch_url E url = Raised e ->
  fetch_with_trafilatura E url = Raised e.
Proof. intros H. unfold fetch_with_trafilatura. by rewrite H. Qed.

(** ** The publish date of the fallback adapter *)

Lemma append_cons a s t : String a s +:+ t = String a (s +:+ t).
Proof. reflexivity. Qed.

Lemma append_empty_r s : s +:+ "" = s.
Proof. induction s as [|a s IH]; [done|]. by rewrite append_cons, IH. Qed.

Lemma append_assoc s t u : (s +:+ t) +:+ u = s +:+ t +:+ u.
Proof. induction s as [|a s IH]; [done|]. by rewrite !append_cons, IH. Qed.

(** A date in UTC is written as the naive date followed by [+00:00]. *)
Lemma isoformat_utc w :
  Datetime.isoformat (Datetime.mk_datetime w (Some 0%Z))
  = Datetime.isoformat (Datetime.mk_datetime w None) +:+ "+00:00".
Proof.
  unfold Datetime.isoformat. cbn [Datetime.wall Datetime.tzinfo].
  destruct (Datetime.civil_of_days _) as [[y m] dd].
  change (Datetime.format_offset 0) with "+00:00".
  by rewrite append_empty_r, !append_assoc.
Qed.

(** C8, as the code has it. Every publish date that newspaper reports is
    converted by [astimezone(timezone.utc)] and serialised by [isoformat()]:
    the offset taken off is the date's own when it has timezone
    information, and the host's local offset when it has none; the [date] of
    the record is the resulting wall-clock reading followed by [+00:00]. *)
Theorem newspaper_date_utc (E : env) (url : string) (art : article)
  (parsed : urlparts) (d : Datetime.datetime) (off : Z) :
  NEWSPAPER_OK E = true ->
  Article_parse E url = Returned art ->
  art_publish_date (Article_nlp E art) = Some d ->
  urlparse E url = Returned parsed ->
  match Datetime.tzinfo d with
  | Some own => Returned own
  | None => local_utcoffset E (Datetime.wall d)
  end = Returned off ->
  Datetime.representable (Datetime.wall d - off * Datetime.us_per_second)
  = true ->
  exists r : gmap string value,
    fetch_with_newspaper E url = Returned (Some r)
    /\ r !! "date"
       = Some (VStr (Datetime.isoformat
                       (Datetime.mk_datetime
                          (Datetime.wall d - off * Datetime.us_per_second)
                          None)
                     +:+ "+00:00")).
Proof.
  intros Hok Hart Hd Hurl Hoff Hrep.
  unfold fetch_with_newspaper, Datetime.astimezone_utc, Datetime.minus_offset.
  rewrite Hok, Hart. cbn [negb mbind outcome_bind obind try_except].
  rewrite Hd, Hoff. cbn [mbind outcome_bind obind]. rewrite Hrep.
  cbn [mbind outcome_bind obind mret outcome_ret]. rewrite Hurl.
  cbn [mbind outcome_bind obind mret outcome_ret try_except].
  eexists. split; [reflexivity|].
  rewrite <- isoformat_utc. unfold mk_record. by simplify_map_eq.
Qed.

Lemma newspaper_date_utc_witness :
  exists r : gmap string value,
    fetch_with_newspaper Scenario.naive_date_env Scenario.page
    = Returned (Some r)
    /\ r !! "date" = Some (VStr "2023-12-31T17:00:00+00:00").
Proof.
  apply (newspaper_date_utc Scenario.naive_date_env Scenario.page
           Scenario.naive_date_article (mk_urlparts "https" "news.example")
           Scenario.naive_date 25200%Z); reflexivity.
Defined.

(** The claim of C8 fails on a date without timezone: midnight of 2024-01-01
    on a host seven hours ahead of UTC is stored as 17:00 of the day before,
    in UTC, where the specification's rule gives the date as it stands. *)
Lemma newspaper_naive_date_converted :
  Datetime.tzinfo Scenario.naive_date = None
  /\ date_of (fetch_with_newspaper Scenario.naive_date_env Scenario.page)
     = VStr "2023-12-31T17:00:00+00:00"
  /\ spec_newspaper_date Scenario.naive_date
     = Returned (VStr "2024-01-01T00:00:00")
  /\ String.eqb "2023-12-31T17:00:00+00:00" "2024-01-01T00:00:00" = false.
Proof. vm_compute. repeat split. Qed.

(** Without a publish date the record has no date. *)
Lemma newspaper_no_date E url art parsed :
  NEWSPAPER_OK E = true ->
  Article_parse E url = Returned art ->
  art_publish_date (Article_nlp E art) = None ->
  urlparse E url = Returned parsed ->
  date_of (fetch_with_newspaper E url) = VNone.
Proof.
  intros Hok Hart Hd Hurl. unfold fetch_with_newspaper.
  rewrite Hok, Hart. cbn [negb mbind outcome_bind obind try_except].
  rewrite Hd. cbn [mbind outcome_bind obind mret outcome_ret]. rewrite Hurl.
  reflexivity.
Qed.

(** A date that cannot be moved to UTC within the years 1 to 9999 makes the
    adapter give up the whole article. *)
Lemma newspaper_date_out_of_range E url art d off :
  NEWSPAPER_OK E = true ->
  Article_parse E url = Returned art ->
  art_publish_date (Article_nlp E art) = Some d ->
  Datetime.tzinfo d = Some off ->
  Datetime.representable (Datetime.wall d - off * Datetime.us_per_second)
  = false ->
  fetch_with_newspaper E url = Returned None.
Proof.
  intros Hok Hart Hd Htz Hrep.
  unfold fetch_with_newspaper, Datetime.astimezone_utc, Datetime.minus_offset.
  rewrite Hok, Hart. cbn [negb mbind outcome_bind obind try_except].
  rewrite Hd, Htz. cbn [mbind outcome_bind obind]. rewrite Hrep.
  reflexivity.
Qed.

(** ** The robots.txt gate *)

(** Whatever goes wrong in the [try] of [robots_allowed], reading robots.txt
    or asking [can_fetch], the answer is [True]. *)
Lemma robots_allowed_try_fails E url parsed :
  urlparse E url = Returned parsed ->
  raises (can_fetch ← robots_read E (robots_txt_url parsed);
          can_fetch DEFAULT_UA url) = true ->
  robots_allowed E url = Returned true.
Proof.
  intros Hp Hr. unfold robots_allowed. rewrite Hp.
  cbn [mbind outcome_bind obind mret outcome_ret]. f_equal.
  unfold try_except. by case_match.
Qed.

Lemma main_loop_skip E url rest :
  skipped E false url = Returned true ->
  main_loop E false (url :: rest) = main_loop E false rest.
Proof. intros H. cbn [main_loop]. by rewrite H. Qed.

(** The part of the gate that works as intended: when reading robots.txt
    raises, [robots_allowed] answers [True]; and in a run that consults
    robots.txt a URL that is denied is skipped, nothing is fetched or saved
    for it, and the loop goes on with the URLs that follow. *)
Theorem robots_gate (E : env) (url : string) :
  (forall parsed e,
      urlparse E url = Returned parsed ->
      robots_read E (robots_txt_url parsed) = Raised e ->
      robots_allowed E url = Returned true)
  /\ (forall rest,
         robots_allowed E url = Returned false ->
         main_loop E false (url :: rest) = main_loop E false rest).
Proof.
  split.
  - intros parsed e Hp Hr. apply (robots_allowed_try_fails E url parsed Hp).
    by rewrite Hr.
  - intros rest Hdeny. apply main_loop_skip. unfold skipped.
    by rewrite Hdeny.
Qed.

Lemma robots_gate_witness :
  robots_allowed Scenario.robots_unreachable_env Scenario.page = Returned true
  /\ main_loop Scenario.robots_deny_env false
       [Scenario.page; Scenario.other_page]
     = main_loop Scenario.robots_deny_env false [Scenario.other_page].
Proof.
  split.
  - apply (proj1 (robots_gate Scenario.robots_unreachable_env Scenario.page)
             (mk_urlparts "https" "news.example") URLError);
      reflexivity.
  - apply (proj2 (robots_gate Scenario.robots_deny_env Scenario.page)
             [Scenario.other_page]).
    reflexivity.
Defined.

(** With [--skip-robots] robots.txt is not consulted: the URLs it would
    deny are fetched and saved like any other. *)
Lemma robots_deny_not_skipped :
  robots_allowed Scenario.robots_deny_env Scenario.page = Returned false
  /\ robots_allowed Scenario.robots_deny_env Scenario.other_page
     = Returned false
  /\ length (fst (main_loop Scenario.robots_deny_env true
                    [Scenario.page; Scenario.other_page])) = 2%nat
  /\ main_loop Scenario.robots_deny_env false
       [Scenario.page; Scenario.other_page] = ([], Returned tt).
Proof. vm_compute. repeat split. Qed.

(** A robots.txt that the server answers with a status of 500 or more is
    neither read nor reported as an exception: the parser stays as it was
    made, and its [can_fetch] refuses every URL. *)
Lemma robots_allowed_server_error_any E url parsed reply code :
  urlparse E url = Returned parsed ->
  robots_read E (robots_txt_url parsed)
  = RobotParser.robots_read_of reply (robots_txt_url parsed) ->
  reply (robots_txt_url parsed) = RobotParser.HTTPError code ->
  (500 <= code)%Z ->
  robots_allowed E url = Returned false.
Proof.
  intros Hp Hread Hreply Hcode. unfold robots_allowed. rewrite Hp.
  cbn [mbind outcome_bind obind mret outcome_ret]. rewrite Hread.
  unfold RobotParser.robots_read_of, RobotParser.read. rewrite Hreply.
  assert (((code =? 401) || (code =? 403))%Z = false) as ->.
  { apply orb_false_iff. split; apply Z.eqb_neq; lia. }
  assert (((400 <=? code) && (code <? 500))%Z = false) as ->.
  { apply andb_false_iff. right. apply Z.ltb_ge. lia. }
  reflexivity.
Qed.

(** When the request for robots.txt fails with an exception, the answer is
    [True]. *)
Lemma robots_allowed_no_route E url parsed reply e :
  urlparse E url = Returned parsed ->
  robots_read E (robots_txt_url parsed)
  = RobotParser.robots_read_of reply (robots_txt_url parsed) ->
  reply (robots_txt_url parsed) = RobotParser.Failed e ->
  robots_allowed E url = Returned true.
Proof.
  intros Hp Hread Hreply. apply (robots_allowed_try_fails E url parsed Hp).
  rewrite Hread. unfold RobotParser.robots_read_of. by rewrite Hreply.
Qed.

(** C9 fails where the site answers the request for robots.txt with a
    server error. The policy resource cannot be had and denies nothing, but
    [RobotFileParser.read()] swallows the error instead of raising, the
    [except] of [robots_allowed] never sees it, [can_fetch] answers [False]
    for a parser that has read nothing, and [main] skips every URL of the
    site as disallowed. Only a failure that raises, such as a site that
    cannot be reached at all, is turned into [True]. *)
Theorem robots_allowed_server_error :
  raises (RobotParser.read (RobotParser.HTTPError 503)) = false
  /\ robots_allowed Setting.server_error_env Scenario.page = Returned false
  /\ main_loop Setting.server_error_env false
       [Scenario.page; Scenario.other_page]
     = ([], Returned tt)
  /\ robots_allowed Setting.no_route_env Scenario.page = Returned true.
Proof. repeat split. Qed.

(** ** The theorems at work *)

(** The fallback is not asked when trafilatura has title and text, even if
    asking it would raise. *)
Lemma coalesce_primary_sufficient_witness :
  coalesce_with (fetch_with_trafilatura Scenario.one_author_env)
    (fun _ => Raised URLError) Scenario.page []
  = (Returned Scenario.one_author_record, [CallTrafilatura Scenario.page]).
Proof.
  apply (coalesce_primary_sufficient
           (fetch_with_trafilatura Scenario.one_author_env) Scenario.page
           Scenario.one_author_record);
    reflexivity.
Defined.

(** newspaper has title and text but no date; the date comes from
    trafilatura, the site name stays newspaper's. *)
Lemma coalesce_fallback_backfill_witness :
  exists r : gmap string value,
    (forall log,
        coalesce_with (fetch_with_trafilatura Scenario.backfill_env)
          (fetch_with_newspaper Scenario.backfill_env) Scenario.page log
        = (Returned r,
           log ++ [CallTrafilatura Scenario.page;
                   CallNewspaper Scenario.page]))
    /\ r !! "title" = Scenario.undated_record !! "title"
    /\ r !! "text" = Scenario.undated_record !! "text"
    /\ (forall k, k ∈ ["date"; "authors"; "sitename"] ->
          r !! k
          = if negb (truthy (dict_get Scenario.undated_record k))
               && truthy (opt_get (Some Scenario.partial_record) k)
            then opt_lookup (Some Scenario.partial_record) k
            else Scenario.undated_record !! k)
    /\ (forall k, k ∉ ["date"; "authors"; "sitename"] ->
          r !! k = Scenario.undated_record !! k).
Proof.
  apply (coalesce_fallback_backfill
           (fetch_with_trafilatura Scenario.backfill_env)
           (fetch_with_newspaper Scenario.backfill_env) Scenario.page
           (Some Scenario.partial_record) Scenario.undated_record);
    reflexivity.
Defined.

Example backfill_env_result :
  result_of (coalesce_article Scenario.backfill_env Scenario.page)
  = Returned Scenario.backfilled_record.
Proof. vm_compute. reflexivity. Qed.

Lemma coalesce_neither_sufficient_witness :
  (forall log,
      coalesce_article Scenario.partial_only_env Scenario.page log
      = (Returned Scenario.partial_record,
         log ++ [CallTrafilatura Scenario.page; CallNewspaper Scenario.page]))
  /\ dom (stub Scenario.page) = {[ "url" ]}
  /\ stub Scenario.page !! "url" = Some (VStr Scenario.page).
Proof.
  apply (coalesce_neither_sufficient Scenario.partial_only_env Scenario.page
           (Some Scenario.partial_record) None);
    reflexivity.
Defined.

(** A second run that finds newspaper's dictionary already back-filled
    returns the same record. *)
Lemma coalesce_deterministic_witness :
  fst (coalesce_with (fetch_with_trafilatura Scenario.backfill_env)
         (fetch_with_newspaper Scenario.backfill_env) Scenario.page [])
  = fst (coalesce_with (fetch_with_trafilatura Scenario.backfill_env)
           (fun _ => Returned (Some Scenario.backfilled_record))
           Scenario.page [CallTrafilatura Scenario.page;
                          CallNewspaper Scenario.page]).
Proof.
  apply (coalesce_deterministic
           (fetch_with_trafilatura Scenario.backfill_env)
           (fetch_with_newspaper Scenario.backfill_env)
           (fetch_with_trafilatura Scenario.backfill_env)
           (fun _ => Returned (Some Scenario.backfilled_record))).
  - reflexivity.
  - right. exists (Some Scenario.partial_record), (Some Scenario.undated_record).
    repeat split; vm_compute; reflexivity.
Defined.

Lemma coalesce_url_kept_witness :
  Scenario.backfilled_record !! "url" = Some (VStr Scenario.page)
  /\ forall data fb, backfill data fb !! "url" = fb !! "url".
Proof.
  apply (coalesce_url_kept Scenario.backfill_env Scenario.page
           Scenario.backfilled_record []
           [CallTrafilatura Scenario.page; CallNewspaper Scenario.page]).
  vm_compute. reflexivity.
Defined.

(** * Further properties *)

Set Warnings "-clear-no-such-hyp".

(** ** Stripping *)

Module StripFacts.
Import Slug.

Lemma rstrip_by_idem (p : N -> bool) s :
  rstrip_by p (rstrip_by p s) = rstrip_by p s.
Proof.
  induction s as [|c s IH]; [reflexivity|].
  cbn [rstrip_by]. destruct (rstrip_by p s) as [|c' r] eqn:Hr.
  - destruct (p c) eqn:Hc; [reflexivity|]. cbn [rstrip_by]. by rewrite Hc.
  - change (rstrip_by p (c :: c' :: r))
      with (match rstrip_by p (c' :: r) with
            | [] => if p c then [] else [c]
            | x :: r' => c :: x :: r'
            end).
    by rewrite IH.
Qed.

(** Stripping on the right keeps the first character, unless nothing is
    left. *)
Lemma rstrip_by_cons (p : N -> bool) c s :
  rstrip_by p (c :: s) = [] \/ exists r, rstrip_by p (c :: s) = c :: r.
Proof.
  cbn [rstrip_by]. destruct (rstrip_by p s); [destruct (p c)|]; eauto.
Qed.

Lemma rstrip_by_last (p : N -> bool) s c :
  last (rstrip_by p s) = Some c -> p c = false.
Proof.
  induction s as [|x s IH]; [discriminate|].
  cbn [rstrip_by]. destruct (rstrip_by p s) as [|c' r].
  - destruct (p x) eqn:Hx; [discriminate|]. by intros [= <-].
  - intros H. apply IH. exact H.
Qed.

Lemma rstrip_by_snoc (p : N -> bool) s c :
  p c = true -> rstrip_by p (s ++ [c]) = rstrip_by p s.
Proof.
  intros Hc. induction s as [|x s IH]; cbn [app rstrip_by].
  - by rewrite Hc.
  - by rewrite IH.
Qed.

Lemma lstrip_not_space c s : is_space c = false -> lstrip (c :: s) = c :: s.
Proof. intros Hc. cbn [lstrip]. by rewrite Hc. Qed.

Lemma lstrip_head s c t : lstrip s = c :: t -> is_space c = false.
Proof.
  induction s as [|x s IH]; [discriminate|].
  cbn [lstrip]. destruct (is_space x) eqn:Hx; [exact IH|].
  by intros [= <- _].
Qed.

(** What [strip] returns is empty or starts with a character that is not a
    space. *)
Lemma strip_head s c t : strip s = c :: t -> is_space c = false.
Proof.
  unfold strip. destruct (lstrip s) as [|x r] eqn:Hl; [discriminate|].
  destruct (rstrip_by_cons is_space x r) as [->|[r' ->]]; [discriminate|].
  intros [= <- _]. exact (lstrip_head _ _ _ Hl).
Qed.

Lemma strip_idem s : strip (strip s) = strip s.
Proof.
  destruct (strip s) as [|c t] eqn:Hs; [reflexivity|].
  rewrite <- Hs at 2. unfold strip at 1.
  rewrite (lstrip_not_space c t (strip_head _ _ _ Hs)).
  rewrite <- Hs. unfold strip. apply rstrip_by_idem.
Qed.

(** A stripped line read back with its line end gives the same line. *)
Lemma strip_line_end s : strip s <> [] -> strip (strip s ++ [10%N]) = strip s.
Proof.
  intros Hne. destruct (strip s) as [|c t] eqn:Hs; [done|].
  unfold strip at 1. cbn [app].
  rewrite (lstrip_not_space c (t ++ [10%N]) (strip_head _ _ _ Hs)).
  change (c :: t ++ [10%N]) with ((c :: t) ++ [10%N]).
  rewrite rstrip_by_snoc by reflexivity.
  rewrite <- Hs. unfold strip. apply rstrip_by_idem.
Qed.

Lemma slug_char_not_space c : slug_char c = true -> is_space c = false.
Proof.
  intros H. apply not_true_iff_false. revert H.
  unfold slug_char, is_space, is_lower_az, is_digit, in_range, hyphen,
    underscore, dot.
  rewrite !orb_true_iff, !andb_true_iff, !N.leb_le, !N.eqb_eq. lia.
Qed.

Lemma slug_chars_lstrip s : forallb slug_char s = true -> lstrip s = s.
Proof.
  destruct s as [|c s]; [reflexivity|]. cbn [forallb].
  intros [Hc _]%andb_prop. by apply lstrip_not_space, slug_char_not_space.
Qed.

Lemma slug_chars_rstrip s :
  forallb slug_char s = true -> rstrip_by is_space s = s.
Proof.
  induction s as [|c s IH]; [reflexivity|]. cbn [forallb rstrip_by].
  intros [Hc Hs]%andb_prop. rewrite (IH Hs).
  destruct s; [|reflexivity]. by rewrite (slug_char_not_space c Hc).
Qed.

Lemma slug_chars_sub_unwanted s :
  forallb slug_char s = true -> sub_unwanted s = s.
Proof.
  unfold sub_unwanted. induction s as [|c s IH]; [reflexivity|].
  cbn [forallb List.filter]. intros [Hc Hs]%andb_prop.
  unfold kept at 1. by rewrite Hc, (IH Hs).
Qed.

Lemma slug_chars_sub_spaces in_run s :
  forallb slug_char s = true -> sub_spaces_from in_run s = s.
Proof.
  revert in_run. induction s as [|c s IH]; intros in_run; [reflexivity|].
  cbn [forallb sub_spaces_from]. intros [Hc Hs]%andb_prop.
  by rewrite (slug_char_not_space c Hc), (IH false Hs).
Qed.

(** A string of slug characters that fits and that [str.lower] leaves alone
    goes through [slugify] unchanged. *)
Lemma slug_text_fixed (str_lower : list N -> list N) s max_len :
  forallb slug_char s = true ->
  str_lower s = s ->
  (Z.of_nat (length s) <= max_len)%Z ->
  slug_text str_lower s max_len = s.
Proof.
  intros Hs Hl Hlen. unfold slug_text, strip, sub_spaces.
  rewrite (slug_chars_lstrip s Hs), (slug_chars_rstrip s Hs), Hl.
  rewrite (slug_chars_sub_unwanted s Hs), (slug_chars_sub_spaces false s Hs).
  destruct (Z.gtb_spec (Z.of_nat (length s)) max_len); [lia | reflexivity].
Qed.

Lemma slugify_slug_chars (str_lower : list N -> list N) text max_len :
  forallb slug_char (slugify str_lower text max_len) = true.
Proof.
  destruct (SlugFacts.slugify_cases str_lower text max_len) as [[_ ->]|[_ ->]].
  - reflexivity.
  - apply SlugFacts.slug_text_slug_chars.
Qed.

Lemma slugify_not_empty (str_lower : list N -> list N) text max_len :
  slugify str_lower text max_len <> [].
Proof.
  destruct (SlugFacts.slugify_cases str_lower text max_len)
    as [[_ ->]|[Hne ->]]; [discriminate | exact Hne].
Qed.

Lemma slugify_length (str_lower : list N -> list N) text max_len :
  (0 <= max_len)%Z ->
  (Z.of_nat (length (slugify str_lower text max_len)) <= max_len)%Z
  \/ slugify str_lower text max_len = untitled.
Proof.
  intros Hm.
  destruct (SlugFacts.slugify_cases str_lower text max_len) as [[_ ->]|[_ ->]].
  - by right.
  - left. by apply SlugFacts.slug_text_length.
Qed.

Lemma ascii_lower_slug_chars s :
  forallb slug_char s = true -> ascii_lower s = s.
Proof.
  unfold ascii_lower. induction s as [|c s IH]; [reflexivity|].
  cbn [forallb map]. intros [Hc Hs]%andb_prop. rewrite (IH Hs). f_equal.
  assert (in_range 65 90 c = false) as ->; [|reflexivity].
  apply not_true_iff_false. revert Hc.
  unfold slug_char, is_lower_az, is_digit, in_range, hyphen, underscore, dot.
  rewrite !orb_true_iff, !andb_true_iff, !N.leb_le, !N.eqb_eq. lia.
Qed.

End StripFacts.

(** ** slugify, beyond the default *)

(** X1. [slugify] is idempotent for every [max_len] of at least 8 (the length
    of ["untitled"]): a slug is its own slug. This needs of [str.lower] only
    that it leaves strings of lowercase letters, digits, hyphens, underscores
    and dots alone. *)
Theorem slugify_idempotent (str_lower : list N -> list N) (text : list N)
  (max_len : Z) :
  (8 <= max_len)%Z ->
  (forall s, forallb Slug.slug_char s = true -> str_lower s = s) ->
  Slug.slugify str_lower (Slug.slugify str_lower text max_len) max_len
  = Slug.slugify str_lower text max_len.
Proof.
  intros Hm Hlower.
  pose proof (StripFacts.slugify_slug_chars str_lower text max_len) as Hchars.
  pose proof (StripFacts.slugify_not_empty str_lower text max_len) as Hne.
  assert (Z.of_nat (length (Slug.slugify str_lower text max_len)) <= max_len)%Z
    as Hlen.
  { destruct (StripFacts.slugify_length str_lower text max_len) as [H| ->];
      [lia | exact H | cbn; lia]. }
  unfold Slug.slugify at 1.
  rewrite (StripFacts.slug_text_fixed str_lower _ max_len Hchars
             (Hlower _ Hchars) Hlen).
  by destruct (Slug.slugify str_lower text max_len).
Qed.

Lemma slugify_idempotent_witness :
  Slug.slugify Slug.ascii_lower
    (Slug.slugify Slug.ascii_lower (Slug.of_string " Hello,  World! ") 8) 8
  = Slug.slugify Slug.ascii_lower (Slug.of_string " Hello,  World! ") 8.
Proof.
  apply (slugify_idempotent Slug.ascii_lower
           (Slug.of_string " Hello,  World! ") 8).
  - lia.
  - exact StripFacts.ascii_lower_slug_chars.
Defined.

(** X2. For any [max_len] that is not negative, the slug has at most
    [max_len] characters unless it is ["untitled"]: below 8 the constant is
    the one result that exceeds the bound. *)
Theorem slugify_length_or_untitled (str_lower : list N -> list N)
  (text : list N) (max_len : Z) :
  (0 <= max_len)%Z ->
  (Z.of_nat (length (Slug.slugify str_lower text max_len)) <= max_len)%Z
  \/ Slug.slugify str_lower text max_len = Slug.of_string "untitled".
Proof.
  intros Hm.
  destruct (SlugFacts.slugify_cases str_lower text max_len) as [[_ ->]|[_ ->]].
  - right. reflexivity.
  - left. apply SlugFacts.slug_text_length. exact Hm.
Qed.

Lemma slugify_length_or_untitled_witness :
  (Z.of_nat (length (Slug.slugify Slug.ascii_lower (Slug.of_string "?!") 3))
   <= 3)%Z
  \/ Slug.slugify Slug.ascii_lower (Slug.of_string "?!") 3
     = Slug.of_string "untitled".
Proof.
  apply (slugify_length_or_untitled Slug.ascii_lower (Slug.of_string "?!") 3).
  lia.
Defined.

(** X3. When the text is cut at [max_len], the slug does not end with a
    hyphen or an underscore. *)
Theorem slugify_truncated_end (str_lower : list N -> list N) (text : list N)
  (max_len : Z) (c : N) :
  (Z.of_nat (length (Slug.sub_spaces
                       (Slug.sub_unwanted (str_lower (Slug.strip text)))))
   > max_len)%Z ->
  last (Slug.slugify str_lower text max_len) = Some c ->
  Slug.is_hyphen_or_underscore c = false.
Proof.
  intros Hlong. unfold Slug.slugify, Slug.slug_text.
  rewrite (proj2 (Z.gtb_gt _ _)) by lia.
  destruct (Slug.rstrip_by _ _) as [|x r] eqn:Hr.
  - cbn. by intros [= <-].
  - rewrite <- Hr. apply StripFacts.rstrip_by_last.
Qed.

Lemma slugify_truncated_end_witness :
  Slug.to_string (Slug.slugify Slug.ascii_lower (Slug.of_string "a - b") 3)
  = "a"
  /\ Slug.is_hyphen_or_underscore 97 = false.
Proof.
  split; [reflexivity|].
  apply (slugify_truncated_end Slug.ascii_lower (Slug.of_string "a - b") 3 97);
    reflexivity.
Defined.

(** Without the cut a slug may end with a hyphen: the space before a
    character that is dropped. *)
Example slugify_trailing_hyphen :
  Slug.to_string (Slug.slugify Slug.ascii_lower (Slug.of_string "a !") 80)
  = "a-".
Proof. reflexivity. Qed.

(** ** The file of URLs *)

Module UrlFileFacts.
Import Slug UrlFile.

Lemma read_urls_from_file_spec lines u :
  In u (read_urls_from_file lines) <->
  exists line, In line lines /\ u = strip line
               /\ is_empty (strip line) = false
               /\ is_comment (strip line) = false.
Proof.
  unfold read_urls_from_file. rewrite in_map_iff. split.
  - intros (line & <- & [Hin Hk]%filter_In).
    apply andb_prop in Hk as [He Hc]. apply negb_true_iff in He, Hc. eauto 6.
  - intros (line & Hin & -> & He & Hc). exists line. split; [reflexivity|].
    apply filter_In. by rewrite He, Hc.
Qed.

Lemma read_urls_all_clean lines :
  Forall clean (read_urls_from_file lines).
Proof.
  apply List.Forall_forall. intros u (line & _ & -> & He & Hc)
    %read_urls_from_file_spec.
  split; [apply StripFacts.strip_idem | done].
Qed.

Lemma read_urls_from_file_to_lines urls :
  Forall clean urls -> read_urls_from_file (to_lines urls) = urls.
Proof.
  induction 1 as [|u urls (Hs & He & Hc) _ IH]; [reflexivity|].
  unfold read_urls_from_file, to_lines in *. cbn [map List.filter].
  assert (strip (u ++ [10%N]) = u) as Hline.
  { rewrite <- Hs. apply StripFacts.strip_line_end. rewrite Hs.
    by destruct u. }
  rewrite Hline, He, Hc. cbn [negb andb map]. by rewrite Hline, IH.
Qed.

End UrlFileFacts.

(** X4. Every URL that [read_urls_from_file] returns comes from a line of
    the file, has no white space at either end, is not empty and does not
    start with [#]: blank lines and comment lines, indented or not, are left
    out. *)
Theorem read_urls_from_file_clean (lines : list (list N)) (u : list N) :
  In u (UrlFile.read_urls_from_file lines) ->
  (exists line, In line lines /\ u = Slug.strip line)
  /\ Slug.strip u = u
  /\ u <> []
  /\ UrlFile.is_comment u = false.
Proof.
  intros (line & Hin & -> & He & Hc)%UrlFileFacts.read_urls_from_file_spec.
  split; [eauto|]. split; [apply StripFacts.strip_idem|].
  split; [|exact Hc]. by destruct (Slug.strip line).
Qed.

Lemma read_urls_from_file_clean_witness :
  (exists line,
      In line (map Slug.of_string ["# news"; "  http://a/b  "; ""])
      /\ Slug.of_string "http://a/b" = Slug.strip line)
  /\ Slug.strip (Slug.of_string "http://a/b") = Slug.of_string "http://a/b"
  /\ Slug.of_string "http://a/b" <> []
  /\ UrlFile.is_comment (Slug.of_string "http://a/b") = false.
Proof.
  apply (read_urls_from_file_clean
           (map Slug.of_string ["# news"; "  http://a/b  "; ""])
           (Slug.of_string "http://a/b")).
  vm_compute. left. reflexivity.
Defined.

(** X5. Writing the URLs that were read one per line and reading that file
    again gives the same URLs: reading is a round trip on its own results. *)
Theorem read_urls_from_file_round_trip (lines : list (list N)) :
  UrlFile.read_urls_from_file
    (UrlFile.to_lines (UrlFile.read_urls_from_file lines))
  = UrlFile.read_urls_from_file lines.
Proof.
  apply UrlFileFacts.read_urls_from_file_to_lines.
  apply UrlFileFacts.read_urls_all_clean.
Qed.

(** ** The name of the Markdown file *)

Module MarkdownFacts.
Import Slug Markdown.

Lemma hex_digit_slug_char c : is_hex_digit c = true -> slug_char c = true.
Proof.
  unfold is_hex_digit, slug_char, is_lower_az, is_digit, in_range, hyphen,
    underscore, dot.
  rewrite !orb_true_iff, !andb_true_iff, !N.leb_le, !N.eqb_eq. lia.
Qed.

Lemma hex_digits_slug_chars s :
  forallb is_hex_digit s = true -> forallb slug_char s = true.
Proof.
  induction s as [|c s IH]; [reflexivity|]. cbn [forallb].
  intros [Hc Hs]%andb_prop. by rewrite (hex_digit_slug_char c Hc), IH.
Qed.

Lemma slug_chars_no_slash s :
  forallb slug_char s = true -> starts_with_slash s = false.
Proof.
  destruct s as [|c s]; [reflexivity|]. cbn [forallb starts_with_slash].
  intros [Hc _]%andb_prop. apply not_true_iff_false. revert Hc.
  unfold slug_char, is_lower_az, is_digit, in_range, hyphen, underscore, dot,
    slash.
  rewrite !orb_true_iff, !andb_true_iff, !N.leb_le, !N.eqb_eq. lia.
Qed.

Section WithLibraries.
Variable str_lower : list N -> list N.
Variable sha1_hexdigest : list N -> list N.
Hypothesis hexdigest_length : forall s, length (sha1_hexdigest s) = 40%nat.
Hypothesis hexdigest_digits :
  forall s, forallb is_hex_digit (sha1_hexdigest s) = true.

Lemma file_slug_slug_chars title url :
  forallb slug_char (file_slug str_lower sha1_hexdigest title url) = true.
Proof.
  unfold file_slug. case_bool_decide.
  - apply SlugFacts.firstn_forallb, hex_digits_slug_chars, hexdigest_digits.
  - apply StripFacts.slugify_slug_chars.
Qed.

Lemma file_slug_not_empty title url :
  file_slug str_lower sha1_hexdigest title url <> [].
Proof.
  unfold file_slug. case_bool_decide.
  - pose proof (hexdigest_length url) as Hl.
    destruct (sha1_hexdigest url); [discriminate | discriminate].
  - apply StripFacts.slugify_not_empty.
Qed.

End WithLibraries.
End MarkdownFacts.

(** X6. The file name that [save_markdown] builds is the date prefix, a stem
    that is not empty, and [.md], all made of lowercase letters, digits,
    hyphens, underscores and dots: whatever the title, no slash or other
    separator gets in, and the file is created directly in [out_dir]. The
    hash is taken to be forty hexadecimal digits and the date prefix to be
    what [strftime("%Y-%m-%d") + "_"] gives, or empty. *)
Theorem save_markdown_file_name
  (str_lower sha1_hexdigest : list N -> list N)
  (out_dir date_part title url : list N) :
  (forall s, length (sha1_hexdigest s) = 40%nat) ->
  (forall s, forallb Markdown.is_hex_digit (sha1_hexdigest s) = true) ->
  forallb Slug.slug_char date_part = true ->
  Markdown.file_slug str_lower sha1_hexdigest title url <> []
  /\ forallb Slug.slug_char
       (Markdown.file_name str_lower sha1_hexdigest date_part title url)
     = true
  /\ Markdown.file_path str_lower sha1_hexdigest out_dir date_part title url
     = out_dir
         ++ (if UrlFile.is_empty out_dir || Markdown.ends_with_slash out_dir
             then [] else [Markdown.slash])
         ++ Markdown.file_name str_lower sha1_hexdigest date_part title url.
Proof.
  intros Hlen Hhex Hdate.
  assert (forallb Slug.slug_char
            (Markdown.file_name str_lower sha1_hexdigest date_part title url)
          = true) as Hname.
  { unfold Markdown.file_name. rewrite !forallb_app, Hdate.
    by rewrite (MarkdownFacts.file_slug_slug_chars _ _ Hhex). }
  split; [by apply MarkdownFacts.file_slug_not_empty|]. split; [exact Hname|].
  unfold Markdown.file_path, Markdown.path_join.
  rewrite (MarkdownFacts.slug_chars_no_slash _ Hname).
  by destruct (UrlFile.is_empty out_dir || Markdown.ends_with_slash out_dir).
Qed.

Lemma save_markdown_file_name_witness :
  Markdown.file_slug Slug.ascii_lower
    (fun _ => Slug.of_string "da39a3ee5e6b4b0d3255bfef95601890afd80709")
    (Slug.of_string "../../etc/passwd") (Slug.of_string "http://a/b")
  <> []
  /\ forallb Slug.slug_char
       (Markdown.file_name Slug.ascii_lower
          (fun _ => Slug.of_string "da39a3ee5e6b4b0d3255bfef95601890afd80709")
          (Slug.of_string "2024-01-01_") (Slug.of_string "../../etc/passwd")
          (Slug.of_string "http://a/b"))
     = true
  /\ Markdown.file_path Slug.ascii_lower
       (fun _ => Slug.of_string "da39a3ee5e6b4b0d3255bfef95601890afd80709")
       (Slug.of_string "./articles") (Slug.of_string "2024-01-01_")
       (Slug.of_string "../../etc/passwd") (Slug.of_string "http://a/b")
     = Slug.of_string "./articles"
         ++ (if UrlFile.is_empty (Slug.of_string "./articles")
                || Markdown.ends_with_slash (Slug.of_string "./articles")
             then [] else [Markdown.slash])
         ++ Markdown.file_name Slug.ascii_lower
              (fun _ =>
                 Slug.of_string "da39a3ee5e6b4b0d3255bfef95601890afd80709")
              (Slug.of_string "2024-01-01_")
              (Slug.of_string "../../etc/passwd")
              (Slug.of_string "http://a/b").
Proof.
  apply (save_markdown_file_name Slug.ascii_lower
           (fun _ => Slug.of_string "da39a3ee5e6b4b0d3255bfef95601890afd80709")
           (Slug.of_string "./articles") (Slug.of_string "2024-01-01_")
           (Slug.of_string "../../etc/passwd") (Slug.of_string "http://a/b"));
    [intros; reflexivity | intros; reflexivity | reflexivity].
Defined.

Example save_markdown_file_path_example :
  Slug.to_string
    (Markdown.file_path Slug.ascii_lower
       (fun _ => Slug.of_string "da39a3ee5e6b4b0d3255bfef95601890afd80709")
       (Slug.of_string "./articles") (Slug.of_string "2024-01-01_")
       (Slug.of_string "../../etc/passwd") (Slug.of_string "http://a/b"))
  = "./articles/2024-01-01_....etcpasswd.md".
Proof. reflexivity. Qed.

(** ** More on the robots.txt gate *)

(** X7. [robots_allowed] answers [False] only when robots.txt was read, for
    the URL [scheme://netloc/robots.txt] of the page's site, and its
    [can_fetch] refused the page to the script's user agent: every failure
    on the way counts as permission. *)
Theorem robots_allowed_false (E : env) (url : string) :
  robots_allowed E url = Returned false ->
  exists parsed can_fetch,
    urlparse E url = Returned parsed
    /\ robots_read E (scheme parsed +:+ "://" +:+ netloc parsed
                      +:+ "/robots.txt") = Returned can_fetch
    /\ can_fetch DEFAULT_UA url = Returned false.
Proof.
  unfold robots_allowed, robots_txt_url, mbind, outcome_bind, obind, mret,
    outcome_ret, try_except.
  destruct (urlparse E url) as [parsed|]; [|discriminate].
  destruct (robots_read E _) as [can_fetch|] eqn:Hread; [|discriminate].
  destruct (can_fetch DEFAULT_UA url) as [[]|] eqn:Hcf; try discriminate.
  intros _. eauto.
Qed.

Lemma robots_allowed_false_witness :
  exists parsed can_fetch,
    urlparse Scenario.robots_deny_env Scenario.page = Returned parsed
    /\ robots_read Scenario.robots_deny_env
         (scheme parsed +:+ "://" +:+ netloc parsed +:+ "/robots.txt")
       = Returned can_fetch
    /\ can_fetch DEFAULT_UA Scenario.page = Returned false.
Proof.
  apply (robots_allowed_false Scenario.robots_deny_env Scenario.page).
  reflexivity.
Defined.

Lemma final_record_returns E url :
  raises (trafilatura_fetch_url E url) = false ->
  (forall page, raises (trafilatura_extract E page) = false) ->
  exists r, final_record E url = Returned r.
Proof.
  intros Hf He.
  destruct (coalesce_article_returns E url [] Hf He) as (r & log' & Hr).
  unfold final_record, result_of. rewrite Hr. cbn. eauto.
Qed.

(** ** More on the coalescer *)

Lemma or_stub_insufficient data url :
  sufficient data = None ->
  truthy (dict_get (or_stub data url) "title")
  && truthy (dict_get (or_stub data url) "text") = false.
Proof.
  intros Hd%sufficient_None. unfold or_stub.
  destruct data as [d|]; [destruct (dict_truthy d)|]; try exact Hd;
    unfold dict_get; by rewrite stub_lookup.
Qed.

(** X9. The record returned has a non-empty title and a non-empty text
    exactly when one of the two adapter results had both: the coalescer
    neither loses a sufficient result nor makes one up out of two partial
    ones. *)
Theorem coalesce_sufficient_iff
  (primary secondary : string -> outcome (option (gmap string value)))
  (url : string) (data fallback : option (gmap string value))
  (log : list adapter_call) :
  primary url = Returned data ->
  secondary url = Returned fallback ->
  exists r : gmap string value,
    fst (coalesce_with primary secondary url log) = Returned r
    /\ truthy (dict_get r "title") && truthy (dict_get r "text")
       = (truthy (opt_get data "title") && truthy (opt_get data "text"))
         || (truthy (opt_get fallback "title")
             && truthy (opt_get fallback "text")).
Proof.
  intros Hp Hs. destruct (sufficient data) as [d|] eqn:Hd.
  - rewrite (coalesce_with_sufficient _ _ url data d) by assumption.
    apply sufficient_Some in Hd as (-> & Ht & Hx). exists d.
    split; [reflexivity|]. cbn [opt_get]. by rewrite Ht, Hx.
  - rewrite (coalesce_with_fallback _ _ url data fallback) by assumption.
    eexists. split; [reflexivity|].
    rewrite (proj1 (sufficient_None data) Hd). cbn [orb].
    destruct (sufficient fallback) as [fb|] eqn:Hf.
    + apply sufficient_Some in Hf as (-> & Ht & Hx). cbn [opt_get].
      rewrite !backfill_get_other
        by (apply title_not_backfilled || apply text_not_backfilled).
      reflexivity.
    + rewrite (proj1 (sufficient_None fallback) Hf).
      by apply or_stub_insufficient.
Qed.

Lemma coalesce_sufficient_iff_witness :
  exists r : gmap string value,
    fst (coalesce_with (fetch_with_trafilatura Scenario.backfill_env)
           (fetch_with_newspaper Scenario.backfill_env) Scenario.page [])
    = Returned r
    /\ truthy (dict_get r "title") && truthy (dict_get r "text")
       = (truthy (opt_get (Some Scenario.partial_record) "title")
          && truthy (opt_get (Some Scenario.partial_record) "text"))
         || (truthy (opt_get (Some Scenario.undated_record) "title")
             && truthy (opt_get (Some Scenario.undated_record) "text")).
Proof.
  apply (coalesce_sufficient_iff
           (fetch_with_trafilatura Scenario.backfill_env)
           (fetch_with_newspaper Scenario.backfill_env) Scenario.page
           (Some Scenario.partial_record) (Some Scenario.undated_record) []);
    reflexivity.
Defined.

(** X10. Each adapter is invoked at most once for a URL and the primary
    comes first: a run adds to the log either the call to the primary alone
    or that call followed by the call to the fallback, and the fallback is
    called exactly when the primary returned an insufficient result. *)
Theorem coalesce_call_log
  (primary secondary : string -> outcome (option (gmap string value)))
  (url : string) (log : list adapter_call) :
  exists calls,
    snd (coalesce_with primary secondary url log) = log ++ calls
    /\ (calls = [CallTrafilatura url]
        \/ calls = [CallTrafilatura url; CallNewspaper url])
    /\ (calls = [CallTrafilatura url; CallNewspaper url] <->
        exists data, primary url = Returned data /\ sufficient data = None).
Proof.
  destruct (primary url) as [data|e] eqn:Hp.
  2: { exists [CallTrafilatura url].
       rewrite (coalesce_with_primary_raises _ _ url e) by assumption.
       split; [reflexivity|]. split; [by left|].
       split; [discriminate | by intros (? & ? & _)]. }
  destruct (sufficient data) as [d|] eqn:Hd.
  { exists [CallTrafilatura url].
    rewrite (coalesce_with_sufficient _ _ url data d) by assumption.
    split; [reflexivity|]. split; [by left|].
    split; [discriminate | intros (? & [= <-] & ?); congruence]. }
  exists [CallTrafilatura url; CallNewspaper url]. split.
  - destruct (secondary url) as [fallback|e] eqn:Hs.
    + by rewrite (coalesce_with_fallback _ _ url data fallback).
    + by rewrite (coalesce_with_fallback_raises _ _ url data e).
  - split; [by right|]. split; [eauto | reflexivity].
Qed.

(** X11. Where newspaper could not be imported the coalescer amounts to the
    primary adapter alone: when [fetch_with_trafilatura] returns, it returns
    trafilatura's record if there is one, sufficient or not, and the stub
    otherwise; when [fetch_with_trafilatura] raises, the exception is let
    through. *)
Theorem coalesce_without_newspaper (E : env) (url : string) :
  NEWSPAPER_OK E = false ->
  result_of (coalesce_article E url)
  = match fetch_with_trafilatura E url with
    | Returned (Some d) => Returned d
    | Returned None => Returned (stub url)
    | Raised e => Raised e
    end.
Proof.
  intros Hok. unfold result_of, coalesce_article.
  destruct (fetch_with_trafilatura E url) as [data|e] eqn:Hp.
  2: { by rewrite (coalesce_with_primary_raises _ _ url e). }
  destruct (sufficient data) as [d|] eqn:Hd.
  - rewrite (coalesce_with_sufficient _ _ url data d) by assumption.
    by apply sufficient_Some in Hd as (-> & _).
  - rewrite (coalesce_with_fallback _ _ url data None); try assumption.
    + cbn [sufficient fst]. unfold or_stub.
      destruct data as [d|]; [|reflexivity].
      destruct (fetch_with_trafilatura_Some _ _ _ Hp) as (?&?&?&?&?&->).
      by rewrite adapter_record_truthy.
    + unfold fetch_with_newspaper. by rewrite Hok.
Qed.

Lemma coalesce_without_newspaper_witness :
  result_of (coalesce_article Setting.no_newspaper_env Scenario.page)
  = Returned Scenario.partial_record.
Proof.
  etransitivity.
  - apply (coalesce_without_newspaper Setting.no_newspaper_env Scenario.page).
    reflexivity.
  - vm_compute. reflexivity.
Defined.

(** ** The fields of a record *)

Lemma dom_mk_record url title authors date text sitename :
  dom (mk_record url title authors date text sitename) = record_keys.
Proof.
  unfold mk_record, record_keys. rewrite !dom_insert_L, dom_empty_L.
  cbn [list_to_set]. set_solver.
Qed.

Lemma fieldnames_record_keys : list_to_set CSV_FIELDNAMES = record_keys.
Proof. unfold CSV_FIELDNAMES, record_keys. cbn [list_to_set]. set_solver. Qed.

Lemma backfill_keys_record_keys k : k ∈ backfill_keys -> k ∈ record_keys.
Proof.
  unfold backfill_keys, record_keys.
  intros [->|[->|[->|[]%elem_of_nil]%elem_of_cons]%elem_of_cons]%elem_of_cons;
    compute_done.
Qed.

Lemma opt_get_truthy data k :
  truthy (opt_get data k) = true -> is_Some (opt_lookup data k).
Proof.
  destruct data as [d|]; [|discriminate]. cbn [opt_get opt_lookup].
  intros H. rewrite (dict_get_truthy d k H). eauto.
Qed.

(** Back-filling a record that has the three keys adds and removes none. *)
Lemma dom_backfill data (fb : gmap string value) :
  (forall k, k ∈ backfill_keys -> is_Some (fb !! k)) ->
  dom (backfill data fb) = dom fb.
Proof.
  intros Hkeys. apply set_eq. intros k. rewrite !elem_of_dom, backfill_lookup.
  case_decide as Hk; [|reflexivity].
  destruct (negb (truthy (dict_get fb k)) && truthy (opt_get data k)) eqn:Hc;
    [|reflexivity].
  apply andb_prop in Hc as [_ Hc]. split; intros _.
  - by apply Hkeys.
  - by apply opt_get_truthy.
Qed.

Lemma dom_backfill_record data url title authors date text sitename :
  dom (backfill data (mk_record url title authors date text sitename))
  = record_keys.
Proof.
  rewrite dom_backfill; [apply dom_mk_record|].
  intros k Hk%backfill_keys_record_keys. apply elem_of_dom.
  by rewrite dom_mk_record.
Qed.

Lemma coalesce_article_dom E url r log log' :
  coalesce_article E url log = (Returned r, log') ->
  dom r = record_keys \/ r = stub url.
Proof.
  intros Hr. unfold coalesce_article in Hr.
  destruct (fetch_with_trafilatura E url) as [data|e] eqn:Hp.
  2: { by rewrite (coalesce_with_primary_raises _ _ url e) in Hr. }
  destruct (sufficient data) as [d|] eqn:Hd.
  { rewrite (coalesce_with_sufficient _ _ url data d) in Hr by assumption.
    apply sufficient_Some in Hd as (-> & _). simplify_eq.
    destruct (fetch_with_trafilatura_Some _ _ _ Hp) as (?&?&?&?&?&->).
    left. apply dom_mk_record. }
  destruct (fetch_with_newspaper_returns E url) as [fallback Hs].
  rewrite (coalesce_with_fallback _ _ url data fallback) in Hr by assumption.
  destruct (sufficient fallback) as [fb|] eqn:Hf; simplify_eq.
  - apply sufficient_Some in Hf as (-> & _).
    destruct (fetch_with_newspaper_Some _ _ _ Hs) as (?&?&?&?&?&->).
    left. apply dom_backfill_record.
  - unfold or_stub. destruct data as [d|]; [|by right].
    destruct (fetch_with_trafilatura_Some _ _ _ Hp) as (?&?&?&?&?&->).
    rewrite adapter_record_truthy. left. apply dom_mk_record.
Qed.

(** X12. A record that [coalesce_article] returns has exactly the six fields
    [url], [title], [authors], [date], [text] and [sitename], or it is the
    stub: back-filling adds no field and drops none. *)
Theorem coalesce_article_fields (E : env) (url : string)
  (r : gmap string value) (log log' : list adapter_call) :
  coalesce_article E url log = (Returned r, log') ->
  dom r = list_to_set ["url"; "title"; "authors"; "date"; "text"; "sitename"]
  \/ r = {[ "url" := VStr url ]}.
Proof. intros Hr. exact (coalesce_article_dom E url r log log' Hr). Qed.

Lemma coalesce_article_fields_witness :
  dom Scenario.backfilled_record
  = list_to_set ["url"; "title"; "authors"; "date"; "text"; "sitename"]
  \/ Scenario.backfilled_record = {[ "url" := VStr Scenario.page ]}.
Proof.
  apply (coalesce_article_fields Scenario.backfill_env Scenario.page
           Scenario.backfilled_record []
           [CallTrafilatura Scenario.page; CallNewspaper Scenario.page]).
  vm_compute. reflexivity.
Defined.

Lemma finalize_lookup_other (c : gmap string value) k :
  k <> "authors" -> finalize c !! k = c !! k.
Proof.
  intros Hk. unfold finalize.
  destruct (negb (truthy (dict_get c "authors"))); [|reflexivity].
  by apply lookup_insert_ne.
Qed.

Lemma finalize_idempotent (c : gmap string value) :
  finalize (finalize c) = finalize c.
Proof.
  destruct (truthy (dict_get c "authors")) eqn:Ha.
  - assert (finalize c = c) as -> by (unfold finalize; by rewrite Ha).
    unfold finalize. by rewrite Ha.
  - assert (finalize c = <["authors" := VList []]> c) as ->
      by (unfold finalize; by rewrite Ha).
    unfold finalize, dict_get. rewrite lookup_insert_eq. cbn.
    apply insert_insert_eq.
Qed.

Lemma finalize_dom (c : gmap string value) :
  dom (finalize c) = {[ "authors" ]} ∪ dom c.
Proof.
  unfold finalize. destruct (truthy (dict_get c "authors")) eqn:Ha; cbn [negb].
  - apply dict_get_truthy in Ha. apply (elem_of_dom_2 c) in Ha. set_solver.
  - apply dom_insert_L.
Qed.

Lemma final_record_url E url r :
  final_record E url = Returned r -> r !! "url" = Some (VStr url).
Proof.
  intros (c & Hc & ->)%final_record_inv.
  rewrite finalize_lookup_other by done.
  unfold result_of in Hc.
  destruct (coalesce_article E url []) as [o log'] eqn:Hrun. cbn in Hc. subst o.
  exact (coalesce_article_url _ _ _ _ _ Hrun).
Qed.

Lemma final_record_dom E url r :
  final_record E url = Returned r ->
  dom r = record_keys \/ dom r = {[ "authors"; "url" ]}.
Proof.
  intros (c & Hc & ->)%final_record_inv. rewrite finalize_dom.
  unfold result_of in Hc.
  destruct (coalesce_article E url []) as [o log'] eqn:Hrun. cbn in Hc. subst o.
  destruct (coalesce_article_dom _ _ _ _ _ Hrun) as [-> | ->].
  - left. unfold record_keys. cbn [list_to_set]. set_solver.
  - right. unfold stub. rewrite dom_singleton_L. set_solver.
Qed.

(** X13. The record that [main] hands to the sinks always has [url], equal
    to the URL being processed, and [authors]; it has no field beyond the
    six of the schema; apart from [authors] it is the coalesced record; and
    normalising it once more would change nothing. *)
Theorem final_record_schema (E : env) (url : string)
  (r : gmap string value) :
  final_record E url = Returned r ->
  r !! "url" = Some (VStr url)
  /\ is_Some (r !! "authors")
  /\ dom r ⊆ list_to_set ["url"; "title"; "authors"; "date"; "text";
                          "sitename"]
  /\ (exists c,
         result_of (coalesce_article E url) = Returned c
         /\ forall k, k <> "authors" -> r !! k = c !! k)
  /\ finalize r = r.
Proof.
  intros Hr. split; [exact (final_record_url E url r Hr)|].
  pose proof (final_record_dom E url r Hr) as Hdom.
  destruct (final_record_inv E url r Hr) as (c & Hc & ->).
  split; [rewrite finalize_authors; eauto|]. split.
  - fold record_keys. destruct Hdom as [-> | ->]; [done|].
    unfold record_keys. cbn [list_to_set]. set_solver.
  - split; [|apply finalize_idempotent].
    exists c. split; [exact Hc|]. intros k Hk. by apply finalize_lookup_other.
Qed.

Lemma final_record_schema_witness :
  finalize (stub Scenario.page) !! "url" = Some (VStr Scenario.page)
  /\ is_Some (finalize (stub Scenario.page) !! "authors")
  /\ dom (finalize (stub Scenario.page))
     ⊆ list_to_set ["url"; "title"; "authors"; "date"; "text"; "sitename"]
  /\ (exists c,
         result_of (coalesce_article Setting.nothing_found_env Scenario.page)
         = Returned c
         /\ forall k, k <> "authors" ->
                      finalize (stub Scenario.page) !! k = c !! k)
  /\ finalize (finalize (stub Scenario.page)) = finalize (stub Scenario.page).
Proof.
  apply (final_record_schema Setting.nothing_found_env Scenario.page
           (finalize (stub Scenario.page))).
  vm_compute. reflexivity.
Defined.

(** ** The CSV catalog *)

Lemma str_join_strings sep l :
  forallb is_str l = true -> exists s, str_join sep l = Returned s.
Proof.
  induction l as [|item rest IH]; [by exists ""|].
  cbn [forallb]. intros [Hi Hr]%andb_prop.
  destruct item as [| | |s| |]; try discriminate.
  cbn [str_join]. destruct rest as [|item' rest']; [eauto|].
  destruct (IH Hr) as [joined ->]. cbn. eauto.
Qed.

Lemma str_join_not_strings sep l :
  forallb is_str l = false -> str_join sep l = Raised TypeError.
Proof.
  induction l as [|item rest IH]; [discriminate|].
  cbn [forallb]. intros Hl.
  destruct item as [| | |s| |]; try reflexivity.
  cbn [is_str andb] in Hl. cbn [str_join].
  destruct rest as [|item' rest']; [discriminate|].
  by rewrite (IH Hl).
Qed.

Lemma dictwriter_cells_schema (row : gmap string value) :
  dom row ⊆ record_keys ->
  dictwriter_cells row
  = Returned ((fun k => default (VStr "") (row !! k)) <$> CSV_FIELDNAMES).
Proof.
  intros Hdom. unfold dictwriter_cells.
  rewrite bool_decide_eq_true_2; [reflexivity|].
  by rewrite fieldnames_record_keys.
Qed.

Lemma final_record_dom_schema E url r :
  final_record E url = Returned r -> dom r ⊆ record_keys.
Proof.
  intros [-> | ->]%final_record_dom; [done|].
  unfold record_keys. cbn [list_to_set]. set_solver.
Qed.

(** X14. Building the CSV row of a final record never fails on an unknown
    field. It gives the six cells in the order of the header, the first being
    the URL and the authors cell never a list (a list of names is joined with
    a comma and a space, a bare string is kept), unless [authors] is a list
    that holds something other than a string, in which case the join raises
    [TypeError]. *)
Theorem csv_row_final_record (E : env) (url : string)
  (r : gmap string value) :
  final_record E url = Returned r ->
  (exists cells authors,
      csv_row r = Returned cells
      /\ length cells = 6%nat
      /\ cells !! 0%nat = Some (VStr url)
      /\ cells !! 3%nat = Some authors
      /\ is_list authors = false)
  \/ (csv_row r = Raised TypeError
      /\ exists l, dict_get r "authors" = VList l
                   /\ forallb is_str l = false).
Proof.
  intros Hr.
  pose proof (final_record_url E url r Hr) as Hurl.
  pose proof (final_record_dom_schema E url r Hr) as Hdom.
  destruct (final_record_inv E url r Hr) as (c & _ & Hfin).
  assert (is_Some (r !! "authors")) as [a Ha]
    by (subst r; rewrite finalize_authors; eauto).
  unfold csv_row, csv_rowdict, dict_get. rewrite Ha.
  cbn [default from_option id].
  destruct a as [| | | |l|].
  5: { destruct (forallb is_str l) eqn:Hl.
       - left. destruct (str_join_strings ", " l Hl) as [joined Hj].
         rewrite Hj. cbn [mbind outcome_bind obind mret outcome_ret].
         rewrite dictwriter_cells_schema.
         + eexists _, _. split; [reflexivity|]. split; [reflexivity|]. cbn.
           rewrite lookup_insert_ne by done. rewrite Hurl, lookup_insert_eq.
           done.
         + rewrite dom_insert_L. apply union_least; [|exact Hdom].
           apply singleton_subseteq_l. compute_done.
       - right. rewrite (str_join_not_strings ", " l Hl). eauto. }
  all: left; eexists _, _; cbn [mbind outcome_bind obind mret outcome_ret];
    rewrite (dictwriter_cells_schema r Hdom);
    (split; [reflexivity|]); (split; [reflexivity|]); cbn;
    by rewrite Hurl, Ha.
Qed.

Lemma csv_row_final_record_witness :
  (exists cells authors,
      csv_row Scenario.one_author_record = Returned cells
      /\ length cells = 6%nat
      /\ cells !! 0%nat = Some (VStr Scenario.page)
      /\ cells !! 3%nat = Some authors
      /\ is_list authors = false)
  \/ (csv_row Scenario.one_author_record = Raised TypeError
      /\ exists l, dict_get Scenario.one_author_record "authors" = VList l
                   /\ forallb is_str l = false).
Proof.
  apply (csv_row_final_record Scenario.one_author_env Scenario.page
           Scenario.one_author_record).
  vm_compute. reflexivity.
Defined.

Lemma append_csv_all_existing records rows old :
  Forall2 (fun record cells => csv_row record = Returned cells) records rows ->
  append_csv_all records (Some old) = Some (old ++ rows).
Proof.
  intros H. revert old.
  induction H as [|record cells records rows Hrow _ IH]; intros old.
  - by rewrite app_nil_r.
  - unfold append_csv_all in *. cbn [foldl]. unfold append_csv at 2.
    rewrite Hrow. cbn [fst]. rewrite IH. by rewrite <- app_assoc.
Qed.

(** X15. When every row can be built, the catalog after appending the
    records of a run is the old rows followed by one row per record, in
    order; the header is written once, on top, and only when the file did
    not exist: a file that exists, even empty, never gets one. *)
Theorem append_csv_all_rows (record : gmap string value)
  (records : list (gmap string value)) (cells : list value)
  (rows : list (list value)) (old : list (list value)) :
  csv_row record = Returned cells ->
  Forall2 (fun record cells => csv_row record = Returned cells) records rows ->
  append_csv_all (record :: records) None
  = Some (csv_header :: cells :: rows)
  /\ append_csv_all (record :: records) (Some old)
     = Some (old ++ cells :: rows).
Proof.
  intros Hrow Hrows. split.
  - unfold append_csv_all. cbn [foldl]. unfold append_csv at 2.
    rewrite Hrow. cbn [fst].
    exact (append_csv_all_existing records rows _ Hrows).
  - apply append_csv_all_existing. by constructor.
Qed.

Lemma append_csv_all_rows_witness :
  append_csv_all [stub Scenario.page; stub Scenario.other_page] None
  = Some [csv_header;
          [VStr Scenario.page; VStr ""; VStr ""; VStr ""; VStr ""; VStr ""];
          [VStr Scenario.other_page; VStr ""; VStr ""; VStr ""; VStr "";
           VStr ""]]
  /\ append_csv_all [stub Scenario.page; stub Scenario.other_page] (Some [])
     = Some ([] ++
             [[VStr Scenario.page; VStr ""; VStr ""; VStr ""; VStr "";
               VStr ""];
              [VStr Scenario.other_page; VStr ""; VStr ""; VStr ""; VStr "";
               VStr ""]]).
Proof.
  apply (append_csv_all_rows (stub Scenario.page) [stub Scenario.other_page]).
  - reflexivity.
  - repeat constructor.
Defined.

(** ** The loop of main *)

(** X16. A run over two lists of URLs one after the other is a run over the
    first followed, if that did not end in an exception, by a run over the
    second: nothing is carried from one URL to the next, and what was saved
    before an exception stays saved. *)
Theorem main_loop_app (E : env) (skip_robots : bool)
  (urls1 urls2 : list string) :
  main_loop E skip_robots (urls1 ++ urls2)
  = match main_loop E skip_robots urls1 with
    | (saved1, Returned _) =>
        (saved1 ++ fst (main_loop E skip_robots urls2),
         snd (main_loop E skip_robots urls2))
    | (saved1, Raised e) => (saved1, Raised e)
    end.
Proof.
  induction urls1 as [|url urls1 IH]; cbn [app main_loop].
  - by destruct (main_loop E skip_robots urls2).
  - destruct (skipped E skip_robots url) as [[]|]; [exact IH| |reflexivity].
    destruct (final_record E url) as [record|]; [|reflexivity].
    destruct (persist E record); [|reflexivity].
    rewrite IH. by destruct (main_loop E skip_robots urls1) as [saved1 []].
Qed.

Lemma final_record_get_url E url r :
  final_record E url = Returned r -> dict_get r "url" = VStr url.
Proof. intros H%final_record_url. unfold dict_get. by rewrite H. Qed.

Lemma main_loop_saved E skip_robots urls :
  exists later,
    VStr <$> List.filter (passes_gate E skip_robots) urls
    = ((fun r => dict_get r "url") <$> fst (main_loop E skip_robots urls))
      ++ later
    /\ (snd (main_loop E skip_robots urls) = Returned tt -> later = []).
Proof.
  induction urls as [|url urls (later & IH & Hdone)];
    cbn [main_loop List.filter].
  { exists []. split; [reflexivity | done]. }
  unfold passes_gate at 1.
  destruct (skipped E skip_robots url) as [[]|]; [by exists later| |].
  2: { eexists. split; [reflexivity | discriminate]. }
  destruct (final_record E url) as [record|] eqn:Hrec.
  2: { eexists. split; [reflexivity | discriminate]. }
  destruct (persist E record).
  2: { eexists. split; [reflexivity | discriminate]. }
  destruct (main_loop E skip_robots urls) as [saved ending].
  exists later. cbn [fst snd fmap list_fmap] in *. split; [|exact Hdone].
  cbn. by rewrite (final_record_get_url _ _ _ Hrec), IH.
Qed.

(** X17. The records saved by a run are, in order, one record for each URL
    that passed the gate, each carrying its URL, up to the point where the
    run stopped; a run that ends without exception has saved one for every
    such URL, also for those where both extractors found nothing. *)
Theorem main_loop_saved_urls (E : env) (skip_robots : bool)
  (urls : list string) :
  ((fun r => dict_get r "url") <$> fst (main_loop E skip_robots urls))
    `prefix_of` (VStr <$> List.filter (passes_gate E skip_robots) urls)
  /\ (snd (main_loop E skip_robots urls) = Returned tt ->
      (fun r => dict_get r "url") <$> fst (main_loop E skip_robots urls)
      = VStr <$> List.filter (passes_gate E skip_robots) urls).
Proof.
  destruct (main_loop_saved E skip_robots urls) as (later & Heq & Hdone).
  split.
  - exists later. exact Heq.
  - intros Hend. rewrite Heq, (Hdone Hend). by rewrite app_nil_r.
Qed.

Lemma main_loop_saved_urls_witness :
  (fun r => dict_get r "url")
    <$> fst (main_loop Setting.nothing_found_env true
               [Scenario.page; Scenario.other_page])
  = VStr <$> List.filter (passes_gate Setting.nothing_found_env true)
               [Scenario.page; Scenario.other_page].
Proof.
  apply (main_loop_saved_urls Setting.nothing_found_env true
           [Scenario.page; Scenario.other_page]).
  reflexivity.
Defined.

(** A full disk at the second URL: the first record stays saved, the run
    ends there. *)
Example main_loop_disk_full :
  main_loop Setting.disk_full_env true
    [Scenario.page; Scenario.other_page; Scenario.page]
  = ([Scenario.one_author_record], Raised OSError).
Proof. vm_compute. reflexivity. Qed.

(** ** The record of the fallback adapter *)

Lemma str_or_none_shape s :
  str_or_none s = VNone \/ truthy (str_or_none s) = true.
Proof.
  unfold str_or_none. destruct (String.eqb s "") eqn:Hs; [by left|].
  right. cbn [truthy]. by rewrite Hs.
Qed.

(** X18. In a record of the fallback adapter a missing title or text is
    [None], never an empty string; [authors] is a list of strings, empty
    when there is no author; [date] is [None] or a string; [sitename] is a
    string. *)
Theorem fetch_with_newspaper_normalised (E : env) (url : string)
  (d : gmap string value) :
  fetch_with_newspaper E url = Returned (Some d) ->
  (dict_get d "title" = VNone \/ truthy (dict_get d "title") = true)
  /\ (dict_get d "text" = VNone \/ truthy (dict_get d "text") = true)
  /\ is_list_of_str (dict_get d "authors") = true
  /\ (dict_get d "date" = VNone \/ is_str (dict_get d "date") = true)
  /\ is_str (dict_get d "sitename") = true.
Proof.
  intros Hd. pose proof (fetch_with_newspaper_authors E url d Hd) as Hauthors.
  revert Hd.
  unfold fetch_with_newspaper, mbind, outcome_bind, obind, mret, outcome_ret,
    try_except.
  intros H. repeat case_match; simplify_eq;
    (split; [|split; [|split; [exact Hauthors|split]]];
     unfold dict_get, mk_record; simplify_map_eq; cbn [default from_option id];
     auto using str_or_none_shape).
Qed.

Lemma fetch_with_newspaper_normalised_witness :
  (dict_get Scenario.undated_record "title" = VNone
   \/ truthy (dict_get Scenario.undated_record "title") = true)
  /\ (dict_get Scenario.undated_record "text" = VNone
      \/ truthy (dict_get Scenario.undated_record "text") = true)
  /\ is_list_of_str (dict_get Scenario.undated_record "authors") = true
  /\ (dict_get Scenario.undated_record "date" = VNone
      \/ is_str (dict_get Scenario.undated_record "date") = true)
  /\ is_str (dict_get Scenario.undated_record "sitename") = true.
Proof.
  apply (fetch_with_newspaper_normalised Scenario.backfill_env Scenario.page
           Scenario.undated_record).
  vm_compute. reflexivity.
Defined.

(** ** Failures that cost the whole record *)

(** X19. The primary adapter gives no result, even after a successful
    extraction, when the JSON does not decode, when it decodes to something
    that is not an object, or when it names no site and the URL cannot be
    parsed to take the host instead. *)
Theorem fetch_with_trafilatura_malformed (E : env) (url page text : string) :
  trafilatura_fetch_url E url = Returned (Some page) ->
  page <> "" ->
  trafilatura_extract E page = Returned (Some text) ->
  text <> "" ->
  raises (json_loads E text) = true
  \/ (exists data, json_loads E text = Returned data
                   /\ raises (value_get data "title") = true)
  \/ (exists data, json_loads E text = Returned data
                   /\ value_get data "sitename" = Returned VNone
                   /\ raises (urlparse E url) = true) ->
  fetch_with_trafilatura E url = Returned None.
Proof.
  intros Hf Hpage He Htext Hbad.
  assert (nonempty (Some page) = Some page) as Hn1.
  { cbn. by rewrite (proj2 (String.eqb_neq page "") Hpage). }
  assert (nonempty (Some text) = Some text) as Hn2.
  { cbn. by rewrite (proj2 (String.eqb_neq text "") Htext). }
  destruct Hbad as [Hj|[Hj|(data & Hj & Hsite & Hurl)]].
  - apply (fetch_with_trafilatura_bad_json E url _ page _ text Hf Hn1 He Hn2).
    by left.
  - apply (fetch_with_trafilatura_bad_json E url _ page _ text Hf Hn1 He Hn2).
    by right.
  - unfold fetch_with_trafilatura. rewrite Hf.
    cbn [mbind outcome_bind obind]. rewrite Hn1, He.
    cbn [mbind outcome_bind obind]. rewrite Hn2, Hj.
    destruct data as [| | | | |doc]; try discriminate.
    cbn [value_get mbind outcome_bind obind mret outcome_ret] in *.
    injection Hsite as Hsite. rewrite Hsite. cbn [truthy].
    destruct (urlparse E url); [discriminate|].
    by repeat case_match.
Qed.

Lemma fetch_with_trafilatura_malformed_witness :
  fetch_with_trafilatura Setting.unparsable_url_env Setting.unparsable_url
  = Returned None.
Proof.
  apply (fetch_with_trafilatura_malformed Setting.unparsable_url_env
           Setting.unparsable_url "<html>" "{...}");
    [reflexivity | discriminate | reflexivity | discriminate |].
  right. right. exists Scenario.one_author_doc. repeat split.
Defined.

(** What the fallback adapter stores for a date with timezone
    information. *)
Lemma fetch_with_newspaper_aware_date E url art d off r :
  Article_parse E url = Returned art ->
  art_publish_date (Article_nlp E art) = Some d ->
  Datetime.tzinfo d = Some off ->
  fetch_with_newspaper E url = Returned (Some r) ->
  dict_get r "date"
  = VStr (Datetime.isoformat
            (Datetime.mk_datetime
               (Datetime.wall d - off * Datetime.us_per_second) (Some 0%Z))).
Proof.
  intros Hart Hd Htz.
  unfold fetch_with_newspaper, Datetime.astimezone_utc, Datetime.minus_offset.
  destruct (negb (NEWSPAPER_OK E)); [discriminate|].
  rewrite Hart. cbn [mbind outcome_bind obind try_except mret outcome_ret].
  rewrite Hd, Htz. cbn [mbind outcome_bind obind].
  destruct (Datetime.representable _); [|discriminate].
  cbn [mbind outcome_bind obind mret outcome_ret].
  destruct (urlparse E url); [|discriminate].
  cbn [mbind outcome_bind obind mret outcome_ret]. intros [= <-].
  unfold dict_get, mk_record. by simplify_map_eq.
Qed.

(** X20. A publish date that cannot be moved to UTC, because the result
    would leave the years 1 to 9999 or because the host cannot tell its
    local offset, makes the fallback adapter return nothing at all: title
    and text, although parsed, are lost with it. *)
Theorem fetch_with_newspaper_date_failure (E : env) (url : string)
  (art : article) (d : Datetime.datetime) :
  Article_parse E url = Returned art ->
  art_publish_date (Article_nlp E art) = Some d ->
  raises (Datetime.astimezone_utc (local_utcoffset E) d) = true ->
  fetch_with_newspaper E url = Returned None.
Proof.
  intros Hart Hd Hconv. unfold fetch_with_newspaper.
  destruct (negb (NEWSPAPER_OK E)); [reflexivity|].
  rewrite Hart. cbn [mbind outcome_bind obind try_except mret outcome_ret].
  rewrite Hd. cbn [mbind outcome_bind obind].
  by destruct (Datetime.astimezone_utc (local_utcoffset E) d).
Qed.

Lemma fetch_with_newspaper_date_failure_witness :
  fetch_with_newspaper Setting.first_day_env Scenario.page = Returned None.
Proof.
  apply (fetch_with_newspaper_date_failure Setting.first_day_env Scenario.page
           (mk_article "T" ["X"] (Some Setting.first_day) "Body")
           Setting.first_day);
    reflexivity.
Defined.

(** X21. The date stored depends on the moment of publication only, not on
    the timezone it was written in: two pages whose dates carry different
    offsets but denote the same moment get the same [date]. *)
Theorem fetch_with_newspaper_same_moment (E : env) (url1 url2 : string)
  (art1 art2 : article) (d1 d2 : Datetime.datetime) (off1 off2 : Z)
  (r1 r2 : gmap string value) :
  Article_parse E url1 = Returned art1 ->
  Article_parse E url2 = Returned art2 ->
  art_publish_date (Article_nlp E art1) = Some d1 ->
  art_publish_date (Article_nlp E art2) = Some d2 ->
  Datetime.tzinfo d1 = Some off1 ->
  Datetime.tzinfo d2 = Some off2 ->
  (Datetime.wall d1 - off1 * Datetime.us_per_second
   = Datetime.wall d2 - off2 * Datetime.us_per_second)%Z ->
  fetch_with_newspaper E url1 = Returned (Some r1) ->
  fetch_with_newspaper E url2 = Returned (Some r2) ->
  dict_get r1 "date" = dict_get r2 "date".
Proof.
  intros Ha1 Ha2 Hd1 Hd2 Ht1 Ht2 Hsame Hr1 Hr2.
  rewrite (fetch_with_newspaper_aware_date E url1 art1 d1 off1 r1)
    by assumption.
  rewrite (fetch_with_newspaper_aware_date E url2 art2 d2 off2 r2)
    by assumption.
  by rewrite Hsame.
Qed.

Lemma fetch_with_newspaper_same_moment_witness :
  date_of (fetch_with_newspaper Setting.two_zones_env Scenario.page)
  = VStr "2024-03-10T02:30:00+00:00"
  /\ dict_get
       (mk_record Scenario.page (VStr "T") (VList [VStr "X"])
          (VStr "2024-03-10T02:30:00+00:00") (VStr "Body")
          (VStr "news.example")) "date"
     = dict_get
         (mk_record Scenario.other_page (VStr "T") (VList [VStr "X"])
            (VStr "2024-03-10T02:30:00+00:00") (VStr "Body")
            (VStr "news.example")) "date".
Proof.
  split; [reflexivity|].
  apply (fetch_with_newspaper_same_moment Setting.two_zones_env
           Scenario.page Scenario.other_page
           (mk_article "T" ["X"] (Some Setting.jakarta_date) "Body")
           (mk_article "T" ["X"] (Some Setting.new_york_date) "Body")
           Setting.jakarta_date Setting.new_york_date 25200 (-18000));
    reflexivity.
Defined.

(** ** A URL that cannot be parsed *)

Lemma fetch_with_trafilatura_names_site E url e d :
  urlparse E url = Raised e ->
  fetch_with_trafilatura E url = Returned (Some d) ->
  truthy (dict_get d "sitename") = true.
Proof.
  intros Hp.
  unfold fetch_with_trafilatura, mbind, outcome_bind, obind, mret, outcome_ret,
    try_except.
  rewrite Hp. intros H. repeat case_match; simplify_eq.
  all: unfold dict_get, mk_record; simplify_map_eq; assumption.
Qed.

(** For a URL that [urlparse] rejects the coalescer returns trafilatura's
    record, which then names its site, or the stub. *)
Lemma coalesce_article_unparsable E url e c :
  urlparse E url = Raised e ->
  result_of (coalesce_article E url) = Returned c ->
  truthy (dict_get c "sitename") = true \/ c = stub url.
Proof.
  intros Hp. unfold result_of, coalesce_article.
  destruct (fetch_with_trafilatura E url) as [data|e'] eqn:Hd.
  2: { by rewrite (coalesce_with_primary_raises _ _ url e'). }
  assert (fetch_with_newspaper E url = Returned None) as Hs.
  { apply fetch_with_newspaper_failure. right. right. by rewrite Hp. }
  destruct (sufficient data) as [d|] eqn:Hsuf.
  - rewrite (coalesce_with_sufficient _ _ url data d) by assumption.
    apply sufficient_Some in Hsuf as (-> & _). cbn [fst]. intros [= <-].
    left. exact (fetch_with_trafilatura_names_site E url e d Hp Hd).
  - rewrite (coalesce_with_fallback _ _ url data None) by assumption.
    cbn [sufficient fst]. intros [= <-]. unfold or_stub.
    destruct data as [d|]; [|by right].
    destruct (dict_truthy d); [|by right].
    left. exact (fetch_with_trafilatura_names_site E url e d Hp Hd).
Qed.

(** X8. A URL that [urlparse] rejects stops a run without [--skip-robots]:
    [robots_allowed] parses it outside its [try], the exception ends the
    loop, and nothing is saved for this URL or for those after it. With
    [--skip-robots] the adapters catch the failure, but [save_markdown]
    parses the URL once more, outside any [try], when the record names
    neither title nor site: the final record of such a URL is either
    trafilatura's, which names its site, or the stub, and on the stub the
    title computation of [save_markdown] raises the same exception. *)
Theorem unparsable_url_stops_run (E : env) (url : string) (e : exn)
  (rest : list string) :
  urlparse E url = Raised e ->
  robots_allowed E url = Raised e
  /\ main_loop E false (url :: rest) = ([], Raised e)
  /\ (forall r,
         final_record E url = Returned r ->
         (truthy (dict_get r "sitename") = true
          /\ raises (markdown_title E url r) = false)
         \/ (r = finalize (stub url)
             /\ markdown_title E url r = Raised e)).
Proof.
  intros Hp.
  assert (robots_allowed E url = Raised e) as Hr.
  { unfold robots_allowed. by rewrite Hp. }
  split; [exact Hr|]. split.
  - cbn [main_loop]. unfold skipped. cbn [negb]. by rewrite Hr.
  - intros r (c & Hc & ->)%final_record_inv.
    destruct (coalesce_article_unparsable E url e c Hp Hc) as [Hsite| ->].
    + left. unfold markdown_title, dict_get.
      rewrite !finalize_lookup_other by done.
      fold (dict_get c "title"). fold (dict_get c "sitename").
      split; [exact Hsite|]. unfold py_or.
      destruct (truthy (dict_get c "title")) eqn:Ht.
      * by rewrite Ht.
      * by rewrite Hsite.
    + right. split; [reflexivity|]. unfold markdown_title, dict_get.
      rewrite !finalize_lookup_other by done. rewrite !stub_lookup.
      cbn. by rewrite Hp.
Qed.

Lemma unparsable_url_stops_run_witness :
  robots_allowed Setting.unparsable_url_env Setting.unparsable_url
  = Raised ValueError
  /\ main_loop Setting.unparsable_url_env false
       [Setting.unparsable_url; Scenario.page]
     = ([], Raised ValueError)
  /\ (forall r,
         final_record Setting.unparsable_url_env Setting.unparsable_url
         = Returned r ->
         (truthy (dict_get r "sitename") = true
          /\ raises (markdown_title Setting.unparsable_url_env
                       Setting.unparsable_url r) = false)
         \/ (r = finalize (stub Setting.unparsable_url)
             /\ markdown_title Setting.unparsable_url_env
                  Setting.unparsable_url r = Raised ValueError)).
Proof.
  apply (unparsable_url_stops_run Setting.unparsable_url_env
           Setting.unparsable_url ValueError [Scenario.page]).
  reflexivity.
Defined.

(** With [--skip-robots] the run over such a URL gets as far as
    [save_markdown] and stops there, with nothing saved. *)
Example unparsable_url_skip_robots :
  final_record Setting.unparsable_url_env Setting.unparsable_url
  = Returned (finalize (stub Setting.unparsable_url))
  /\ main_loop Setting.unparsable_url_env true
       [Setting.unparsable_url; Scenario.page]
     = ([], Raised ValueError).
Proof. vm_compute. repeat split. Qed.
